(** * anonpy: the command line shell and the provider-abstraction client

    The first half of this development is a shallow embedding of
    [src/anonpy/__main__.py]: the three commands [preview], [upload] and
    [download] and the entry point [main], written in a state-and-exception
    monad over the world outside the file (provider client, file system,
    terminal).  The second half models the parts of the package the
    tests exercise but whose code lives in other modules (the scoped
    logger, the client's [preview] and [download]). *)

From Stdlib Require Import ZArith Ascii.
From stdpp Require Import base strings list gmap pretty.

(** ** Python values and exceptions *)

(** The JSON scalars a provider's preview record can hold. *)
Inductive pyval : Type :=
  | PyNone
  | PyBool (b : bool)
  | PyInt (z : Z)
  | PyStr (s : string).

#[global] Instance pyval_eq_dec : EqDecision pyval.
Proof. solve_decision. Defined.

(** A [dict] keeps insertion order, which [values()] and [join] observe. *)
Definition pydict := list (string * pyval).

Fixpoint dict_lookup (d : pydict) (key : string) : option pyval :=
  match d with
  | [] => None
  | (k, v) :: rest => if decide (k = key) then Some v else dict_lookup rest key
  end.

(** [d.get(key)]: the value, or [None] when the key is absent. *)
Definition dict_get (d : pydict) (key : string) : pyval :=
  default PyNone (dict_lookup d key).

(** [d.get(key, dflt)]. *)
Definition dict_get_default (d : pydict) (key : string) (dflt : pyval) : pyval :=
  default dflt (dict_lookup d key).

Definition dict_keys (d : pydict) : list string := d.*1.
Definition dict_values (d : pydict) : list pyval := d.*2.

(** [type(v).__name__] *)
Definition type_name (v : pyval) : string :=
  match v with
  | PyNone => "NoneType"
  | PyBool _ => "bool"
  | PyInt _ => "int"
  | PyStr _ => "str"
  end.

(** [str(v)], as an f-string renders a value. *)
Definition py_str (v : pyval) : string :=
  match v with
  | PyNone => "None"
  | PyBool true => "True"
  | PyBool false => "False"
  | PyInt z => pretty z
  | PyStr s => s
  end.

(** The exceptions that reach [main].  [HTTPError] carries the response
    it was raised for (its [text]), which [requests] leaves [None] when
    the error was built without one. *)
Inductive exn : Type :=
  | KeyboardInterrupt
  | SystemExit (code : Z)
  | NotImplementedError (msg : string)
  | HTTPError (msg : string) (response : option string)
  | InterruptedError (msg : string)
  | TypeError (msg : string)
  | AttributeError (msg : string)
  | UnboundLocalError (msg : string)
  | EOFError (msg : string)
  | OtherError (cls : string) (msg : string).

#[global] Instance exn_eq_dec : EqDecision exn.
Proof. solve_decision. Defined.

(** [isinstance(e, Exception)]: everything but the two that derive from
    [BaseException] directly. *)
Definition is_Exception (e : exn) : bool :=
  match e with
  | KeyboardInterrupt | SystemExit _ => false
  | _ => true
  end.

(** [str(e)] *)
Definition exn_str (e : exn) : string :=
  match e with
  | KeyboardInterrupt => ""
  | SystemExit code => pretty code
  | NotImplementedError msg | HTTPError msg _ | InterruptedError msg
  | TypeError msg | AttributeError msg | UnboundLocalError msg
  | EOFError msg | OtherError _ msg => msg
  end.

Inductive result (A : Type) : Type :=
  | Ok (a : A)
  | Raised (e : exn).
Arguments Ok {A} a.
Arguments Raised {A} e.

(** [",".join(items)]: the first item that is not a [str] raises. *)
Fixpoint join_from (i : nat) (sep : string) (items : list pyval) {struct items}
    : result string :=
  match items with
  | [] => Ok ""
  | PyStr s :: rest =>
      match join_from (S i) sep rest with
      | Ok t => Ok (match rest with [] => s | _ => s +:+ sep +:+ t end)
      | Raised e => Raised e
      end
  | v :: _ =>
      Raised (TypeError ("sequence item " +:+ pretty i +:+
                         ": expected str instance, " +:+ type_name v +:+ " found"))
  end.

Definition str_join (sep : string) (items : list pyval) : result string :=
  join_from 0 sep items.

Definition is_str (v : pyval) : bool :=
  match v with PyStr _ => true | _ => false end.

(** ** The world outside [__main__.py] *)

(** [argparse.Namespace], with the attributes the commands read.  An
    attribute that is [None] or an empty list reads as the empty list. *)
Record Namespace : Type := {
  command : option string;
  resource : list string;
  file : list string;
  batch_file : option string;
  path : string;
  verbose : bool;
  check : bool;
  logging : bool;
}.

(** The keyword arguments [main] builds the provider from; the provider
    object is identified with them. *)
Record Kwargs : Type := {
  user_agent : string;
  enable_logging : bool;
}.

#[global] Instance Kwargs_eq_dec : EqDecision Kwargs.
Proof. solve_decision. Defined.

(** Calls that leave the file and writes to the standard streams, in
    the order they happen. *)
Inductive event : Type :=
  | CallParseArgs
  | CallGetResourcePath (package : string)
  | CallPixelDrain (kwargs : Kwargs)
  | CallSetBasePath (folder : string)
  | CallAddHandler (log_file : string)
  | CallShutdown
  | CallDeinit
  | CallPreview (res : string)
  | CallUpload (f : string) (progressbar : bool)
  | CallDownload (res : string) (dest : string) (progressbar : bool)
  | CallExists (p : string)
  | CallInput (prompt : string)
  | CallReadFile (batch : option string)
  | CallChecksum (f : pyval)
  | Stdout (line : string)
  | Stderr (line : string)
  | PrintHelp.

#[global] Instance event_eq_dec : EqDecision event.
Proof. solve_decision. Defined.

Definition digest := string.

(** The imported names whose code is outside the file.  [W] is the state
    they act on (provider, network, file system, terminal); each call
    returns or raises. *)
Record External (W : Type) : Type := {
  __package__ : string;
  __version__ : string;
  build_user_agent : string -> string -> string;
  parse_args : W -> result Namespace * W;
  get_resource_path : string -> W -> result string * W;
  PixelDrain : Kwargs -> W -> result unit * W;
  set_base_path : Kwargs -> string -> W -> result unit * W;
  add_handler : Kwargs -> string -> W -> result unit * W;
  shutdown : Kwargs -> W -> result unit * W;
  anon_preview : Kwargs -> string -> W -> result pydict * W;
  anon_upload : Kwargs -> string -> bool -> W -> result unit * W;
  anon_download : Kwargs -> string -> string -> bool -> W -> result unit * W;
  Path_exists : string -> W -> result bool;
  input : string -> W -> result string * W;
  str2bool : string -> result bool;
  read_file : option string -> W -> result (list string) * W;
  Checksum_compute : pyval -> W -> result digest * W;
  Checksum_hash2string : digest -> string;
  json_dumps : pydict -> string;
  repr : string -> string;
}.
Arguments __package__ {W}.
Arguments __version__ {W}.
Arguments build_user_agent {W}.
Arguments parse_args {W}.
Arguments get_resource_path {W}.
Arguments PixelDrain {W}.
Arguments set_base_path {W}.
Arguments add_handler {W}.
Arguments shutdown {W}.
Arguments anon_preview {W}.
Arguments anon_upload {W}.
Arguments anon_download {W}.
Arguments Path_exists {W}.
Arguments input {W}.
Arguments str2bool {W}.
Arguments read_file {W}.
Arguments Checksum_compute {W}.
Arguments Checksum_hash2string {W}.
Arguments json_dumps {W}.
Arguments repr {W}.

(** The local variables of [main] that its handlers and its [finally]
    read; [None] is an unbound name. *)
Record Locals : Type := {
  module_folder : option string;
  provider : option Kwargs;
}.

Record State (W : Type) : Type := {
  locals : Locals;
  world : W;
}.
Arguments locals {W}.
Arguments world {W}.

(** ** The monad of the shell: state, exceptions and the event log *)

Definition M (W A : Type) : Type := State W -> result A * State W * list event.

Definition ret {W A} (a : A) : M W A := fun s => (Ok a, s, []).

Definition raise {W A} (e : exn) : M W A := fun s => (Raised e, s, []).

Definition bind {W A B} (c : M W A) (k : A -> M W B) : M W B :=
  fun s =>
    match c s with
    | (Ok a, s1, t1) => let '(r, s2, t2) := k a s1 in (r, s2, t1 ++ t2)
    | (Raised e, s1, t1) => (Raised e, s1, t1)
    end.

Declare Scope shell_scope.
Delimit Scope shell_scope with shell.
Notation "x <- c ;; k" := (bind c (fun x => k))
  (at level 100, c at next level, right associativity) : shell_scope.
Notation "c ;; k" := (bind c (fun _ => k))
  (at level 100, right associativity) : shell_scope.
Open Scope shell_scope.

(** [try: body except: handler(e)], the handler choosing the clause. *)
Definition try_except {W A} (body : M W A) (handler : exn -> M W A) : M W A :=
  fun s =>
    match body s with
    | (Ok a, s1, t1) => (Ok a, s1, t1)
    | (Raised e, s1, t1) => let '(r, s2, t2) := handler e s1 in (r, s2, t1 ++ t2)
    end.

(** [try: body finally: fin]: [fin] always runs; what it raises replaces
    the outcome of [body]. *)
Definition try_finally {W A} (body : M W A) (fin : M W unit) : M W A :=
  fun s =>
    let '(r, s1, t1) := body s in
    match fin s1 with
    | (Ok _, s2, t2) => (r, s2, t1 ++ t2)
    | (Raised e, s2, t2) => (Raised e, s2, t1 ++ t2)
    end.

Definition emit {W} (ev : event) : M W unit := fun s => (Ok tt, s, [ev]).

(** An external call: logged, then run on the world. *)
Definition call {W A} (ev : event) (f : W -> result A * W) : M W A :=
  fun s =>
    let '(r, w) := f (world s) in
    (r, {| locals := locals s; world := w |}, [ev]).

(** [for x in items: body(x)] *)
Fixpoint for_each {W A} (items : list A) (body : A -> M W unit) : M W unit :=
  match items with
  | [] => ret tt
  | x :: rest => body x ;; for_each rest body
  end.

(** [print(line)] and [print(line, file=sys.stderr)] *)
Definition print {W} (line : string) : M W unit := emit (Stdout line).
Definition print_stderr {W} (line : string) : M W unit := emit (Stderr line).

Definition tab : string := String "009"%char "".
Definition newline : string := String "010"%char "".

(** [Path(file)]: only a [str] makes a path. *)
Definition Path {W} (f : pyval) : M W string :=
  match f with
  | PyStr s => ret s
  | _ => raise (TypeError ("expected str, bytes or os.PathLike object, not "
                           +:+ type_name f))
  end.

(** A computation that leaves the local variables of [main] alone. *)
Definition keeps_locals {W A} (c : M W A) : Prop :=
  forall s r s' t, c s = (r, s', t) -> locals s' = locals s.

(** A value computed without touching the world, which may raise. *)
Definition lift {W A} (r : result A) : M W A := fun s => (r, s, []).

Definition is_not_None (v : pyval) : bool :=
  match v with PyNone => false | _ => true end.

(** ** The commands *)

Section Commands.
Context {W : Type} (ext : External W).

Definition preview (anon : Kwargs) (args : Namespace) : M W unit :=
  for_each (resource args) (fun resource =>
    preview <- call (CallPreview resource) (anon_preview ext anon resource) ;;
    line <- (if verbose args then ret (json_dumps ext preview)
             else lift (str_join "," (dict_values preview))) ;;
    print line).

Definition upload (anon : Kwargs) (args : Namespace) : M W unit :=
  for_each (file args) (fun file =>
    call (CallUpload file (verbose args))
         (anon_upload ext anon file (verbose args)) ;;
    if negb (verbose args) then ret tt (* continue *) else
    md5 <- call (CallChecksum (PyStr file)) (Checksum_compute ext (PyStr file)) ;;
    print ("md5" +:+ tab +:+ Checksum_hash2string ext md5)).

(** The two strings of the overwrite check. *)
Definition overwrite_warning (args : Namespace) : string :=
  "Warning: A file with the same name already exists in "
  +:+ repr ext (path args) +:+ ".".

Definition overwrite_prompt : string := "Proceed with download? [Y/n] ".

(** The overwrite check of [download]: [true] when the loop is to
    [continue] without downloading. *)
Definition declined (args : Namespace) (file : pyval) : M W bool :=
  if check args then
    if is_not_None file then
      p <- Path file ;;
      found <- call (CallExists p) (fun w => (Path_exists ext p w, w)) ;;
      if (found : bool) then
        print (overwrite_warning args) ;;
        prompt <- call (CallInput overwrite_prompt) (input ext overwrite_prompt) ;;
        answer <- lift (str2bool ext prompt) ;;
        ret (negb answer)
      else ret false
    else ret false
  else ret false.

(** The body of the [for] loop of [download]. *)
Definition download_item (anon : Kwargs) (args : Namespace) (resource : string)
    : M W unit :=
  preview <- call (CallPreview resource) (anon_preview ext anon resource) ;;
  let file := dict_get preview "name" in
  skip <- declined args file ;;
  if (skip : bool) then ret tt (* continue *) else
  call (CallDownload resource (path args) (verbose args))
       (anon_download ext anon resource (path args) (verbose args)) ;;
  if negb (verbose args) then ret tt (* continue *) else
  md5 <- call (CallChecksum file) (Checksum_compute ext file) ;;
  print ("file" +:+ tab +:+ py_str file) ;;
  print ("md5" +:+ tab +:+ Checksum_hash2string ext md5).

(** [args.resource or read_file(args.batch_file)] *)
Definition download_resources (args : Namespace) : M W (list string) :=
  match resource args with
  | [] => call (CallReadFile (batch_file args)) (read_file ext (batch_file args))
  | resources => ret resources
  end.

Definition download (anon : Kwargs) (args : Namespace) : M W unit :=
  resources <- download_resources args ;;
  for_each resources (download_item anon args).

(** ** The entry point *)

Definition log_file : string := "cli.log".

Definition kwargs (args : Namespace) : Kwargs :=
  {| user_agent := build_user_agent ext (__package__ ext) (__version__ ext);
     enable_logging := logging args |}.

Definition bind_module_folder (v : string) : M W unit :=
  fun s => (Ok tt, {| locals := {| module_folder := Some v;
                                   provider := provider (locals s) |};
                      world := world s |}, []).

Definition bind_provider (v : Kwargs) : M W unit :=
  fun s => (Ok tt, {| locals := {| module_folder := module_folder (locals s);
                                   provider := Some v |};
                      world := world s |}, []).

(** Reading a local that no assignment has reached. *)
Definition load {A} (name : string) (get : Locals -> option A) : M W A :=
  fun s =>
    match get (locals s) with
    | Some v => (Ok v, s, [])
    | None => (Raised (UnboundLocalError
                 ("cannot access local variable '" +:+ name +:+
                  "' where it is not associated with a value")), s, [])
    end.

(** Lines 67-73: the statements of the [try] block before the [match]. *)
Definition setup (args : Namespace) : M W Kwargs :=
  folder <- call (CallGetResourcePath (__package__ ext))
                 (get_resource_path ext (__package__ ext)) ;;
  bind_module_folder folder ;;
  anon <- call (CallPixelDrain (kwargs args))
               (fun w => match PixelDrain ext (kwargs args) w with
                         | (Ok _, w1) => (Ok (kwargs args), w1)
                         | (Raised e, w1) => (Raised e, w1)
                         end) ;;
  bind_provider anon ;;
  call (CallSetBasePath folder) (set_base_path ext anon folder) ;;
  call (CallAddHandler log_file) (add_handler ext anon log_file) ;;
  ret anon.

(** Lines 75-83: the [match] on the command. *)
Definition dispatch (anon : Kwargs) (args : Namespace) : M W unit :=
  if decide (command args = Some "preview") then preview anon args
  else if decide (command args = Some "upload") then upload anon args
  else if decide (command args = Some "download") then download anon args
  else raise (NotImplementedError "").

(** Lines 85-98: the [except] clauses, tried in order. *)
Definition handler (e : exn) : M W unit :=
  match e with
  | KeyboardInterrupt => ret tt
  | NotImplementedError _ => emit PrintHelp
  | HTTPError _ response =>
      match response with
      | Some text => print_stderr text
      | None => raise (AttributeError "'NoneType' object has no attribute 'text'")
      end
  | _ =>
      if is_Exception e then print_stderr (exn_str e)
      else
        folder <- load "module_folder" module_folder ;;
        print_stderr
          ("An unhandled exception was thrown. The log file may give you more"
           +:+ newline +:+ "insight into what went wrong: " +:+ repr ext folder
           +:+ "." +:+ newline +:+ "Alternatively, file"
           +:+ newline +:+ "a bug report on GitHub at https://github.com/advanced-systems/anonpy.")
  end.

(** Lines 99-101: the [finally] clause. *)
Definition finally : M W unit :=
  emit CallDeinit ;;
  anon <- load "provider" provider ;;
  call CallShutdown (shutdown ext anon).

(** Lines 66-101: the [try] statement. *)
Definition main_try (args : Namespace) : M W unit :=
  try_finally
    (try_except (anon <- setup args ;; dispatch anon args) handler)
    finally.

(** [main()]; building the parser has no effect the handlers see. *)
Definition main : M W unit :=
  args <- call CallParseArgs (parse_args ext) ;;
  main_try args.

End Commands.

Definition initial {W} (w : W) : State W :=
  {| locals := {| module_folder := None; provider := None |}; world := w |}.

(** ** Where a path string points *)

(** The pieces of a path between its slashes. *)
Fixpoint components (p : string) : list string :=
  match p with
  | EmptyString => [""]
  | String c rest =>
      if Ascii.eqb c "/"%char then "" :: components rest
      else match components rest with
           | [] => [String c ""]
           | piece :: pieces => String c piece :: pieces
           end
  end.

Definition is_absolute (p : string) : bool :=
  match p with
  | String c _ => Ascii.eqb c "/"%char
  | EmptyString => false
  end.

(** One piece further from directory [dir]. *)
Definition enter (dir : list string) (piece : string) : list string :=
  if decide (piece = "") then dir
  else if decide (piece = ".") then dir
  else if decide (piece = "..") then removelast dir
  else dir ++ [piece].

(** The absolute location the system opens for path [p] in a process
    whose working directory is [cwd]. *)
Definition resolve (cwd : list string) (p : string) : list string :=
  fold_left enter (components p) (if is_absolute p then [] else cwd).

Fixpoint has_slash (p : string) : bool :=
  match p with
  | EmptyString => false
  | String c rest => Ascii.eqb c "/"%char || has_slash rest
  end.

(** A bare file name: one piece, naming an entry of a directory. *)
Definition is_file_name (p : string) : bool :=
  negb (has_slash p) && negb (bool_decide (p = "")) &&
  negb (bool_decide (p = ".")) && negb (bool_decide (p = "..")).

(** [dest.joinpath(name)] *)
Definition joinpath (dest name : string) : string :=
  if is_absolute name then name
  else if decide (dest = "") then name
  else dest +:+ "/" +:+ name.

(** Modelled from the spec: the file [anon.download] writes, whose code is
    in the client module: "a file under [destination] named per the
    preview's reported name (falling back to the resource identifier if
    no name is available)". *)
Definition download_target (dest : string) (resource : string) (name : pyval) : string :=
  match name with
  | PyStr n => joinpath dest n
  | _ => joinpath dest resource
  end.

(** The provider operations among the events of a run. *)
Definition is_provider_op (ev : event) : bool :=
  match ev with
  | CallPreview _ | CallUpload _ _ | CallDownload _ _ _ => true
  | _ => false
  end.

Definition provider_ops (t : list event) : list event :=
  filter (fun ev => is_provider_op ev = true) t.

(** The provider operations of a run that are issued for [item]. *)
Definition concerns (item : string) (ev : event) : bool :=
  match ev with
  | CallPreview res | CallDownload res _ _ => bool_decide (res = item)
  | CallUpload f _ => bool_decide (f = item)
  | _ => false
  end.

Definition ops_for (item : string) (t : list event) : list event :=
  filter (fun ev => concerns item ev = true) t.

(** The provider operations one iteration of [download] issues. *)
Definition ops_of_item (args : Namespace) (resource : string) (skipped : bool)
    : list event :=
  CallPreview resource ::
  (if skipped then [] else [CallDownload resource (path args) (verbose args)]).

(** ** A scripted world to run the shell in *)

Module Mock.

Record World : Type := {
  argv : Namespace;
  construction : result unit;       (* what building the provider does *)
  served : string -> result pydict; (* the provider's answer to a preview *)
  existing : list string;           (* paths that exist *)
  keyboard : list string;           (* lines waiting on standard input *)
}.

Definition type_line (w : World) : result string * World :=
  match keyboard w with
  | [] => (Raised (EOFError "EOF when reading a line"), w)
  | line :: rest =>
      (Ok line, {| argv := argv w; construction := construction w;
                   served := served w; existing := existing w;
                   keyboard := rest |})
  end.

Definition ext : External World := {|
  __package__ := "anonpy";
  __version__ := "1.0.0";
  build_user_agent := fun pkg ver => pkg +:+ "/" +:+ ver;
  parse_args := fun w => (Ok (argv w), w);
  get_resource_path := fun pkg w => (Ok ("/home/user/." +:+ pkg), w);
  PixelDrain := fun _ w => (construction w, w);
  set_base_path := fun _ _ w => (Ok tt, w);
  add_handler := fun _ _ w => (Ok tt, w);
  shutdown := fun _ w => (Ok tt, w);
  anon_preview := fun _ res w => (served w res, w);
  anon_upload := fun _ _ _ w => (Ok tt, w);
  anon_download := fun _ _ _ _ w => (Ok tt, w);
  Path_exists := fun p w => Ok (bool_decide (p ∈ existing w));
  input := fun _ w => type_line w;
  str2bool := fun answer => Ok (bool_decide (answer ∈ ["y"; "Y"; "yes"; "true"; "1"]));
  read_file := fun _ w => (Ok [], w);
  Checksum_compute := fun _ w => (Ok "d41d8cd98f00b204e9800998ecf8427e", w);
  Checksum_hash2string := fun d => d;
  json_dumps := fun _ => "{}";
  repr := fun p => "'" +:+ p +:+ "'";
|}.

Definition anon : Kwargs := {| user_agent := "anonpy/1.0.0"; enable_logging := false |}.

(** The file information PixelDrain reports for a resource. *)
Definition file_info (res : string) : pydict :=
  [ ("id", PyStr res); ("name", PyStr (res +:+ ".txt")); ("size", PyInt 1024);
    ("views", PyInt 3); ("bandwidth_used", PyInt 3072);
    ("bandwidth_used_paid", PyInt 0); ("downloads", PyInt 1);
    ("date_upload", PyStr "2023-05-01T10:00:00.000Z");
    ("date_last_view", PyStr "2023-05-02T10:00:00.000Z");
    ("mime_type", PyStr "text/plain");
    ("thumbnail_href", PyStr ("/file/" +:+ res +:+ "/thumbnail"));
    ("hash_sha256", PyStr "e3b0c44298fc1c149afbf4c8996fb92427ae41e4649b934ca495991b7852b855");
    ("delete_after_date", PyStr "0001-01-01T00:00:00Z");
    ("delete_after_downloads", PyInt 0);
    ("availability", PyStr ""); ("availability_message", PyStr "");
    ("abuse_type", PyStr ""); ("abuse_reporter_name", PyStr "");
    ("can_edit", PyBool false); ("can_download", PyBool true);
    ("show_ads", PyBool true); ("allow_video_player", PyBool true);
    ("download_speed_limit", PyInt 0); ("success", PyBool true) ].

Definition args_download (resources : list string) (dest : string)
    (verbose check : bool) : Namespace :=
  {| command := Some "download"; resource := resources; file := [];
     batch_file := None; path := dest; verbose := verbose; check := check;
     logging := false |}.

Definition args_preview (resources : list string) (verbose : bool) : Namespace :=
  {| command := Some "preview"; resource := resources; file := [];
     batch_file := None; path := "."; verbose := verbose; check := false;
     logging := false |}.

Definition world (args : Namespace) (files answers : list string) : World :=
  {| argv := args; construction := Ok tt;
     served := fun res => Ok (file_info res);
     existing := files; keyboard := answers |}.

End Mock.

(** ** The provider-abstraction client *)

Module Core.

Definition bytes := list Byte.byte.

(** Modelled from the spec: the error taxonomy of section 7, declared in
    the package outside the files at hand. *)
Inductive error : Type :=
  | HttpError (status : nat) (body : string)
  | NotFoundError
  | ParseError
  | FileNotFoundError
  | IOError
  | InvalidEndpointError.

(** *** Scoped logger *)

Record LogRecord : Type := {
  timestamp : nat;
  message : string;
}.

Inductive phase : Type :=
  | Uninitialized
  | BasePathSet
  | HandlersAttached
  | ShutDown.

(** Modelled from the spec: the Scoped Logger of section 4.4, whose code
    is in the package's logging module.  [disk] holds the backing files
    (path to persisted records), [handlers] the active set by name,
    [clock] counts the records formatted so far. *)
Record Logger : Type := {
  state : phase;
  base_path : string;
  handlers : list string;
  disk : gmap string (list LogRecord);
  clock : nat;
}.

(** Modelled from the spec: a fresh logger, rooted at the package's
    resource directory until a base path is set. *)
Definition new_logger (resource_dir : string) : Logger :=
  {| state := Uninitialized; base_path := resource_dir; handlers := [];
     disk := ∅; clock := 0 |}.

(** Modelled from the spec: "one file per handler name, rooted at a
    configurable base path". *)
Definition log_path (l : Logger) (name : string) : string :=
  base_path l +:+ "/" +:+ name.

(** Modelled from the spec: "[set_base_path(path)] is only valid before
    handlers are attached or idempotently re-settable"; it returns the
    logger for chaining. *)
Definition set_base_path (p : string) (l : Logger) : Logger :=
  match handlers l with
  | [] => {| state := match state l with Uninitialized => BasePathSet | st => st end;
             base_path := p; handlers := []; disk := disk l; clock := clock l |}
  | _ => l
  end.

(** Modelled from the spec: "[add_handler(name)] creates (or opens) a log
    file under the base path and appends it to the active handler set,
    returning the logger itself". *)
Definition add_handler (name : string) (l : Logger) : Logger :=
  {| state := match state l with ShutDown => ShutDown | _ => HandlersAttached end;
     base_path := base_path l;
     handlers := if decide (name ∈ handlers l) then handlers l
                 else handlers l ++ [name];
     disk := match disk l !! log_path l name with
             | Some _ => disk l
             | None => <[log_path l name := []]> (disk l)
             end;
     clock := clock l |}.

(** Modelled from the spec: the formatting of a log record, as in
    ["Hello, %s!" % args]; the logger is outside the files at hand. *)
Fixpoint percent_format (msg : string) (args : list string) : string :=
  match msg with
  | EmptyString => ""
  | String c rest =>
      match rest with
      | String c' rest' =>
          if Ascii.eqb c "%"%char && Ascii.eqb c' "s"%char then
            match args with
            | a :: args' => a +:+ percent_format rest' args'
            | [] => String c (String c' (percent_format rest' []))
            end
          else String c (percent_format rest args)
      | EmptyString => String c ""
      end
  end.

Definition append_record (r : LogRecord) (p : string)
    (d : gmap string (list LogRecord)) : gmap string (list LogRecord) :=
  <[p := default [] (d !! p) ++ [r]]> d.

(** Modelled from the spec: "Log calls ([debug], etc.) accept a hide flag:
    when true, the record is still formatted but discarded rather than
    written".  The record goes to the file of every attached handler. *)
Definition debug (msg : string) (args : list string) (hide : bool) (l : Logger)
    : Logger :=
  let r := {| timestamp := clock l; message := percent_format msg args |} in
  {| state := state l; base_path := base_path l; handlers := handlers l;
     disk := if hide then disk l
             else foldr (fun name d => append_record r (log_path l name) d)
                        (disk l) (handlers l);
     clock := S (clock l) |}.

(** Modelled from the spec: "[get_log_history(name)] returns the ordered
    sequence of records currently persisted in that handler's file", and
    after [unlink] it "must report empty, not error". *)
Definition get_log_history (name : string) (l : Logger)
    : error + list LogRecord :=
  inr (default [] (disk l !! log_path l name)).

Definition file_exists (p : string) (l : Logger) : bool :=
  bool_decide (is_Some (disk l !! p)).

(** Modelled from the spec: "[unlink(name)] deletes the handler's backing
    file and removes it from the active set". *)
Definition unlink (name : string) (l : Logger) : Logger :=
  {| state := state l; base_path := base_path l;
     handlers := filter (fun h => h ≠ name) (handlers l);
     disk := delete (log_path l name) (disk l);
     clock := clock l |}.

(** Modelled from the spec: "[shutdown()] flushes and releases all
    handler resources; safe to call multiple times". *)
Definition shutdown (l : Logger) : Logger :=
  {| state := ShutDown; base_path := base_path l; handlers := [];
     disk := disk l; clock := clock l |}.

(** *** Endpoint model and transport *)

Record Endpoint : Type := {
  ep_upload : string;
  ep_preview : string;
  ep_download : string;
}.

(** Does the template hold the placeholder [{}]? *)
Fixpoint has_placeholder (tpl : string) : bool :=
  match tpl with
  | EmptyString => false
  | String c rest =>
      match rest with
      | String c' _ =>
          (Ascii.eqb c "{"%char && Ascii.eqb c' "}"%char) || has_placeholder rest
      | EmptyString => false
      end
  end.

(** [tpl.format(arg)] for a template with one placeholder. *)
Fixpoint format (tpl : string) (arg : string) : string :=
  match tpl with
  | EmptyString => ""
  | String c rest =>
      match rest with
      | String c' rest' =>
          if Ascii.eqb c "{"%char && Ascii.eqb c' "}"%char then arg +:+ rest'
          else String c (format rest arg)
      | EmptyString => String c ""
      end
  end.

(** Modelled from the spec: section 4.1, the URL of an operation, "joining
    the base API URL with the formatted template"; it "fails with
    [InvalidEndpointError] if a template expects an identifier but none is
    supplied, or vice versa". *)
Definition resolve_url (api tpl : string) (identifier : option string)
    : error + string :=
  match identifier, has_placeholder tpl with
  | Some i, true => inr (api +:+ format tpl i)
  | None, false => inr (api +:+ tpl)
  | _, _ => inl InvalidEndpointError
  end.

Inductive payload : Type :=
  | Json (record : pydict)
  | Malformed (raw : string)
  | Stream (chunks : list bytes).

Record Response : Type := {
  status : nat;
  body : payload;
}.

Definition text (r : Response) : string :=
  match body r with
  | Malformed raw => raw
  | _ => ""
  end.

(** Modelled from the spec: what the Request Executor of section 4.2
    reaches, its code being in the package: the provider behind GET and
    POST, the
    local files it may upload and the directories it may write to. *)
Record Provider : Type := {
  http_get : string -> Response;
  http_post : string -> bytes -> Response;
  local_file : string -> option bytes;
  writable : string -> bool;
}.

(** Modelled from the spec: section 3, the Provider Client "owns one
    Endpoint, one base API URL, ... one Scoped Logger, and a boolean
    [enable_logging] flag"; [call_count] is the instrumentation count of
    operations issued. *)
Record Client : Type := {
  api : string;
  endpoint : Endpoint;
  enable_logging : bool;
  logger : Logger;
  call_count : nat;
}.

Definition AnonPy (api : string) (endpoint : Endpoint) (resource_dir : string)
    : Client :=
  {| api := api; endpoint := endpoint; enable_logging := false;
     logger := new_logger resource_dir; call_count := 0 |}.

Definition with_logger (c : Client) (l : Logger) : Client :=
  {| api := api c; endpoint := endpoint c; enable_logging := enable_logging c;
     logger := l; call_count := call_count c |}.

Definition set_enable_logging (b : bool) (c : Client) : Client :=
  {| api := api c; endpoint := endpoint c; enable_logging := b;
     logger := logger c; call_count := call_count c |}.

(** Modelled from the spec: a diagnostic record of the client (section
    4.4, "the client's [enable_logging] toggle can suppress persistence
    without suppressing call-site instrumentation"): the call is always
    made, and is
    hidden when the client's logging is off. *)
Definition log (msg : string) (args : list string) (c : Client) : Client :=
  with_logger c (debug msg args (negb (enable_logging c)) (logger c)).

(** Modelled from the spec: entering an operation of the client, which
    is counted and records the request issued (section 4.3, side effects). *)
Definition enter_operation (kind : string) (subject : string) (c : Client) : Client :=
  log "%s %s" [kind; subject]
      {| api := api c; endpoint := endpoint c; enable_logging := enable_logging c;
         logger := logger c; call_count := S (call_count c) |}.

(** Modelled from the spec: the Request Executor's reading of a response
    status (section 4.2), [NotFoundError] for a missing resource and
    [HttpError] for any other non-success status. *)
Definition check_status (r : Response) : error + Response :=
  if decide (status r = 404) then inl NotFoundError
  else if decide (200 ≤ status r < 300) then inr r
  else inl (HttpError (status r) (text r)).

(** Modelled from the spec: section 4.3, "[preview(resource)]: resolves the
    preview URL via the Endpoint Model, issues a GET through the Request
    Executor, parses the JSON body into a Preview Record". *)
Definition preview (p : Provider) (resource : string) (c : Client)
    : (error + pydict) * Client :=
  let c := enter_operation "preview" resource c in
  match resolve_url (api c) (ep_preview (endpoint c)) (Some resource) with
  | inl e => (inl e, c)
  | inr url =>
      let r := http_get p url in
      let c := log "GET %s -> %s" [url; pretty (status r)] c in
      match check_status r with
      | inl e => (inl e, c)
      | inr r =>
          match body r with
          | Json record => (inr record, c)
          | _ => (inl ParseError, c)
          end
      end
  end.

(** Modelled from the spec: section 4.3, "[upload(file, progressbar)]:
    resolves the upload URL, streams the file via the Request Executor,
    returns the parsed confirmation record". *)
Definition upload (p : Provider) (file : string) (c : Client)
    : (error + pydict) * Client :=
  let c := enter_operation "upload" file c in
  match local_file p file with
  | None => (inl FileNotFoundError, c)
  | Some content =>
      match resolve_url (api c) (ep_upload (endpoint c)) None with
      | inl e => (inl e, c)
      | inr url =>
          let r := http_post p url content in
          let c := log "POST %s -> %s" [url; pretty (status r)] c in
          match check_status r with
          | inl e => (inl e, c)
          | inr r =>
              match body r with
              | Json record => (inr record, c)
              | _ => (inl ParseError, c)
              end
          end
      end
  end.

(** Modelled from the spec: the [ByteSink] that [download] returns, "for
    the caller to inspect (size, closed state)". *)
Record ByteSink : Type := {
  sink_path : string;
  closed : bool;
  buffer : bytes;
}.

Definition getvalue (s : ByteSink) : bytes := buffer s.

Definition write (chunk : bytes) (s : ByteSink) : ByteSink :=
  {| sink_path := sink_path s; closed := closed s; buffer := buffer s ++ chunk |}.

(** Modelled from the spec: section 4.2, content "is written
    incrementally to the destination as it is received": one write per
    chunk. *)
Definition stream_to (chunks : list bytes) (s : ByteSink) : ByteSink :=
  fold_left (fun s chunk => write chunk s) chunks s.

(** Modelled from the spec: the name the downloaded file gets, "the
    preview's reported name (falling back to the resource identifier if no
    name is available)". *)
Definition reported_name (info : error + pydict) (resource : string) : string :=
  match info with
  | inr record =>
      match dict_get record "name" with
      | PyStr n => n
      | _ => resource
      end
  | inl _ => resource
  end.

(** Modelled from the spec: section 4.3, "[download(resource, destination,
    progressbar)]: resolves the download URL, streams bytes to a file under
    [destination] named per the preview's reported name ..., returns the
    open/writable sink handle for the caller to inspect". *)
Definition download (p : Provider) (resource dest : string) (c : Client)
    : (error + ByteSink) * Client :=
  let c := enter_operation "download" resource c in
  match resolve_url (api c) (ep_download (endpoint c)) (Some resource) with
  | inl e => (inl e, c)
  | inr url =>
      let r := http_get p url in
      let c := log "GET %s -> %s" [url; pretty (status r)] c in
      match check_status r with
      | inl e => (inl e, c)
      | inr r =>
          if negb (writable p dest) then (inl IOError, c)
          else
            let info :=
              match resolve_url (api c) (ep_preview (endpoint c)) (Some resource) with
              | inr u =>
                  match check_status (http_get p u) with
                  | inr r' => match body r' with
                              | Json record => inr record
                              | _ => inl ParseError
                              end
                  | inl e => inl e
                  end
              | inl e => inl e
              end in
            match body r with
            | Stream chunks =>
                let sink := stream_to chunks
                  {| sink_path := joinpath dest (reported_name info resource);
                     closed := false; buffer := [] |} in
                let c := log "%s bytes transferred"
                             [pretty (length (getvalue sink))] c in
                (inr sink, c)
            | _ => (inl ParseError, c)
            end
      end
  end.

(** The operations of a client, for sequences of them. *)
Inductive operation : Type :=
  | Preview (resource : string)
  | Upload (file : string)
  | Download (resource dest : string).

Definition run (p : Provider) (op : operation) (c : Client) : Client :=
  match op with
  | Preview resource => snd (preview p resource c)
  | Upload file => snd (upload p file c)
  | Download resource dest => snd (download p resource dest c)
  end.

Definition run_all (p : Provider) (ops : list operation) (c : Client) : Client :=
  fold_left (fun c op => run p op c) ops c.

(** The records persisted in the file at path [q]. *)
Definition persisted (q : string) (l : Logger) : list LogRecord :=
  default [] (disk l !! q).

(** What stays fixed across the operations of a client. *)
Definition same_setup (c c' : Client) : Prop :=
  enable_logging c' = enable_logging c /\
  handlers (logger c') = handlers (logger c) /\
  base_path (logger c') = base_path (logger c).

(** [c'] comes after [c]: same setup, files only appended to, and not
    touched at all while logging is off. *)
Definition grows (c c' : Client) : Prop :=
  same_setup c c' /\
  forall q, exists extra,
    persisted q (logger c') = persisted q (logger c) ++ extra /\
    (enable_logging c = false -> extra = []).

End Core.

(** ** The mocked provider of the tests *)

Module MockPixelDrain.
Import Core.

Definition id : string := "abc123".

(** [setUpClass]: the base URL and the endpoint of the test client. *)
Definition api : string := "https://mock.provider.com/api/".

Definition endpoint : Endpoint :=
  {| ep_upload := "/file"; ep_preview := "/file/{}/info"; ep_download := "/file/{}" |}.

Definition home : string := "/home/user".

Definition anon : Client := AnonPy api endpoint "/home/user/.anonpy".

(** Modelled from the spec: the mock's answers, whose code is in the
    tests' [mocks] module: a 24-key record with [success] true and
    [downloads] 1 for a preview, non-empty bytes for a download. *)
Definition get_preview_response : Response :=
  {| status := 200; body := Json (Mock.file_info id) |}.

Definition get_download_response : Response :=
  {| status := 200;
     body := Stream [[Byte.x68; Byte.x65; Byte.x6c]; [Byte.x6c; Byte.x6f]] |}.

Definition get_upload_response : Response :=
  {| status := 200; body := Json [("success", PyBool true); ("id", PyStr id)] |}.

Definition provider : Provider :=
  {| http_get := fun url =>
       if decide (url = api +:+ "/file/abc123/info") then get_preview_response
       else if decide (url = api +:+ "/file/abc123") then get_download_response
       else {| status := 404; body := Malformed "not found" |};
     http_post := fun _ _ => get_upload_response;
     local_file := fun f => if decide (f = "foo.txt") then Some [Byte.x66] else None;
     writable := fun dir => bool_decide (dir = home) |}.

(** [test_preview_with_log_handler], "Arrange": the logger rooted at the
    home directory with the handler [test.json]. *)
Definition log_file : string := "test.json".

Definition anon_with_handler : Client :=
  with_logger anon (add_handler log_file (set_base_path home (logger anon))).

End MockPixelDrain.

(** ** The loop bodies of [preview] and [upload], and kinds of events *)

Section Items.
Context {W : Type} (ext : External W).

(** Lines 21-22: the body of the [for] loop of [preview]. *)
Definition preview_item (anon : Kwargs) (args : Namespace) (resource : string)
    : M W unit :=
  preview <- call (CallPreview resource) (anon_preview ext anon resource) ;;
  line <- (if verbose args then ret (json_dumps ext preview)
           else lift (str_join "," (dict_values preview))) ;;
  print line.

(** Lines 26-30: the body of the [for] loop of [upload]. *)
Definition upload_item (anon : Kwargs) (args : Namespace) (file : string)
    : M W unit :=
  call (CallUpload file (verbose args))
       (anon_upload ext anon file (verbose args)) ;;
  if negb (verbose args) then ret tt (* continue *) else
  md5 <- call (CallChecksum (PyStr file)) (Checksum_compute ext (PyStr file)) ;;
  print ("md5" +:+ tab +:+ Checksum_hash2string ext md5).

(** The events of one verbose upload that goes through. *)
Definition upload_report (file : string) (md5 : digest) : list event :=
  [CallUpload file true; CallChecksum (PyStr file);
   Stdout ("md5" +:+ tab +:+ Checksum_hash2string ext md5)].

(** The three-line message of the bare [except] clause of [main]. *)
Definition unhandled_message (folder : string) : string :=
  "An unhandled exception was thrown. The log file may give you more"
  +:+ newline +:+ "insight into what went wrong: " +:+ repr ext folder
  +:+ "." +:+ newline +:+ "Alternatively, file"
  +:+ newline +:+ "a bug report on GitHub at https://github.com/advanced-systems/anonpy.".

(** The events of lines 67-73 when every call returns. *)
Definition setup_events (args : Namespace) (folder : string) : list event :=
  [CallGetResourcePath (__package__ ext); CallPixelDrain (kwargs ext args);
   CallSetBasePath folder; CallAddHandler log_file].

End Items.

(** Asking the file system or the user about an overwrite. *)
Definition is_overwrite_check (ev : event) : bool :=
  match ev with
  | CallExists _ | CallInput _ => true
  | _ => false
  end.

(** Anything written to the terminal. *)
Definition is_output (ev : event) : bool :=
  match ev with
  | Stdout _ | Stderr _ | PrintHelp => true
  | _ => false
  end.

(** Every download in the trace goes to [dest] with progress bar [bar]
    and comes after a preview of the same resource. *)
Definition downloads_previewed (dest : string) (bar : bool) (t : list event) : Prop :=
  forall t1 res d v t2,
    t = t1 ++ CallDownload res d v :: t2 ->
    d = dest /\ v = bar /\ CallPreview res ∈ t1.

(** ** More scripted worlds *)

Module Script.

Definition args_upload (files : list string) (verbose : bool) : Namespace :=
  {| command := Some "upload"; resource := []; file := files;
     batch_file := None; path := "."; verbose := verbose; check := false;
     logging := false |}.

Definition args_unknown : Namespace :=
  {| command := None; resource := []; file := [];
     batch_file := None; path := "."; verbose := false; check := false;
     logging := true |}.

(** A world whose provider answers previews with [served]. *)
Definition world_serving (served : string -> result pydict) (args : Namespace)
    (files answers : list string) : Mock.World :=
  {| Mock.argv := args; Mock.construction := Ok tt; Mock.served := served;
     Mock.existing := files; Mock.keyboard := answers |}.

(** A record of strings only, one without a name, one whose name is a
    number. *)
Definition plain_info (res : string) : pydict :=
  [("id", PyStr res); ("name", PyStr (res +:+ ".txt")); ("mime_type", PyStr "text/plain")].

Definition nameless_info (res : string) : pydict :=
  [("id", PyStr res); ("success", PyBool true)].

Definition numbered_info (res : string) : pydict :=
  [("id", PyStr res); ("name", PyInt 7)].

(** A provider that does not know the resource [missing]. *)
Definition not_found : exn := HTTPError "404 Client Error" (Some "not found").

Definition serve_but_missing (res : string) : result pydict :=
  if decide (res = "missing") then Raised not_found else Ok (Mock.file_info res).

(** The shell with a command that exits by itself, or fails with an
    [HTTPError] that has no response. *)
Definition ext_raising (e : exn) : External Mock.World :=
  {| __package__ := __package__ Mock.ext;
     __version__ := __version__ Mock.ext;
     build_user_agent := build_user_agent Mock.ext;
     parse_args := parse_args Mock.ext;
     get_resource_path := get_resource_path Mock.ext;
     PixelDrain := PixelDrain Mock.ext;
     set_base_path := set_base_path Mock.ext;
     add_handler := add_handler Mock.ext;
     shutdown := shutdown Mock.ext;
     anon_preview := fun _ _ w => (Raised e, w);
     anon_upload := anon_upload Mock.ext;
     anon_download := anon_download Mock.ext;
     Path_exists := Path_exists Mock.ext;
     input := input Mock.ext;
     str2bool := str2bool Mock.ext;
     read_file := read_file Mock.ext;
     Checksum_compute := Checksum_compute Mock.ext;
     Checksum_hash2string := Checksum_hash2string Mock.ext;
     json_dumps := json_dumps Mock.ext;
     repr := repr Mock.ext |}.

(** The shell on a machine where the resource folder cannot be made. *)
Definition ext_no_folder : External Mock.World :=
  {| __package__ := __package__ Mock.ext;
     __version__ := __version__ Mock.ext;
     build_user_agent := build_user_agent Mock.ext;
     parse_args := parse_args Mock.ext;
     get_resource_path := fun _ w => (Raised (OtherError "PermissionError" "denied"), w);
     PixelDrain := PixelDrain Mock.ext;
     set_base_path := set_base_path Mock.ext;
     add_handler := add_handler Mock.ext;
     shutdown := shutdown Mock.ext;
     anon_preview := anon_preview Mock.ext;
     anon_upload := anon_upload Mock.ext;
     anon_download := anon_download Mock.ext;
     Path_exists := Path_exists Mock.ext;
     input := input Mock.ext;
     str2bool := str2bool Mock.ext;
     read_file := read_file Mock.ext;
     Checksum_compute := Checksum_compute Mock.ext;
     Checksum_hash2string := Checksum_hash2string Mock.ext;
     json_dumps := json_dumps Mock.ext;
     repr := repr Mock.ext |}.

End Script.

(** ** Declined prompts and verbose uploads, along a run *)

Section Runs.
Context {W : Type} (ext : External W).

(** In the iteration of [download] for [resource] that starts in state
    [s], the user declines the overwrite prompt: the check flag is set, the
    previewed name is a string, a file of that name is found, and the
    answer typed at the prompt is read as "no". *)
Definition prompt_declined (anon : Kwargs) (args : Namespace) (resource : string)
    (s : State W) : bool :=
  match anon_preview ext anon resource (world s) with
  | (Ok preview, w1) =>
      check args &&
      match dict_get preview "name" with
      | PyStr p =>
          match Path_exists ext p w1 with
          | Ok true =>
              match input ext overwrite_prompt w1 with
              | (Ok answer, _) =>
                  match str2bool ext answer with
                  | Ok false => true
                  | _ => false
                  end
              | _ => false
              end
          | _ => false
          end
      | _ => false
      end
  | _ => false
  end.

(** For each resource of the loop of [download], in order, whether its
    prompt is declined; each iteration starts where the one before it
    ended. *)
Fixpoint declined_prompts (anon : Kwargs) (args : Namespace)
    (resources : list string) (s : State W) : list bool :=
  match resources with
  | [] => []
  | resource :: rest =>
      prompt_declined anon args resource s ::
      declined_prompts anon args rest (download_item ext anon args resource s).1.2
  end.

(** The calls of a verbose [upload] over [files], threaded through the
    world from [w] to [w']: each file is uploaded, then hashed in the world
    the upload left, and [digests] are what [Checksum.compute] returned,
    file by file. *)
Fixpoint upload_chain (anon : Kwargs) (files : list string) (w : W)
    (digests : list digest) (w' : W) : Prop :=
  match files, digests with
  | [], [] => w' = w
  | f :: files, d :: digests =>
      exists w1 w2,
        anon_upload ext anon f true w = (Ok tt, w1) /\
        Checksum_compute ext (PyStr f) w1 = (Ok d, w2) /\
        upload_chain anon files w2 digests w'
  | _, _ => False
  end.

(** The event is no provider operation, or one for a resource of [items]. *)
Definition operates_on (items : list string) (ev : event) : Prop :=
  is_provider_op ev = true -> exists res, res ∈ items /\ concerns res ev = true.

End Runs.

(** ** A batch file, and names the system cannot look up *)

Module Batch.

(** The shell reading [lines] from its batch file. *)
Definition ext (lines : list string) : External Mock.World :=
  {| __package__ := __package__ Mock.ext;
     __version__ := __version__ Mock.ext;
     build_user_agent := build_user_agent Mock.ext;
     parse_args := parse_args Mock.ext;
     get_resource_path := get_resource_path Mock.ext;
     PixelDrain := PixelDrain Mock.ext;
     set_base_path := set_base_path Mock.ext;
     add_handler := add_handler Mock.ext;
     shutdown := shutdown Mock.ext;
     anon_preview := anon_preview Mock.ext;
     anon_upload := anon_upload Mock.ext;
     anon_download := anon_download Mock.ext;
     Path_exists := Path_exists Mock.ext;
     input := input Mock.ext;
     str2bool := str2bool Mock.ext;
     read_file := fun _ w => (Ok lines, w);
     Checksum_compute := Checksum_compute Mock.ext;
     Checksum_hash2string := Checksum_hash2string Mock.ext;
     json_dumps := json_dumps Mock.ext;
     repr := repr Mock.ext |}.

Definition args (verbose check : bool) : Namespace :=
  {| command := Some "download"; resource := []; file := [];
     batch_file := Some "batch.txt"; path := "/tmp/dl"; verbose := verbose;
     check := check; logging := false |}.

Definition name_too_long : exn := OtherError "OSError" "[Errno 36] File name too long".

(** The shell on a system whose look-up of a name fails. *)
Definition ext_name_too_long : External Mock.World :=
  {| __package__ := __package__ Mock.ext;
     __version__ := __version__ Mock.ext;
     build_user_agent := build_user_agent Mock.ext;
     parse_args := parse_args Mock.ext;
     get_resource_path := get_resource_path Mock.ext;
     PixelDrain := PixelDrain Mock.ext;
     set_base_path := set_base_path Mock.ext;
     add_handler := add_handler Mock.ext;
     shutdown := shutdown Mock.ext;
     anon_preview := anon_preview Mock.ext;
     anon_upload := anon_upload Mock.ext;
     anon_download := anon_download Mock.ext;
     Path_exists := fun _ _ => Raised name_too_long;
     input := input Mock.ext;
     str2bool := str2bool Mock.ext;
     read_file := read_file Mock.ext;
     Checksum_compute := Checksum_compute Mock.ext;
     Checksum_hash2string := Checksum_hash2string Mock.ext;
     json_dumps := json_dumps Mock.ext;
     repr := repr Mock.ext |}.

End Batch.

(** * Properties of the command line shell *)

Example str_join_names :
  str_join "," [PyStr "a.txt"; PyStr "12"; PyStr "x"] = Ok "a.txt,12,x".
Proof. vm_compute. reflexivity. Qed.

Example str_join_bool :
  str_join "," [PyStr "a.txt"; PyBool true] =
  Raised (TypeError "sequence item 1: expected str instance, bool found").
Proof. vm_compute. reflexivity. Qed.

(** Membership of an event in a list built from conses and appends. *)
Ltac events_membership :=
  repeat match goal with
    | H : _ ∈ _ :: _ |- _ => apply elem_of_cons in H as [H | H]
    | H : _ ∈ [] |- _ => apply elem_of_nil in H; destruct H
    | H : _ ∈ _ ++ _ |- _ => apply elem_of_app in H as [H | H]
    | H : exists _, _ |- _ => destruct H
    end;
  repeat first [rewrite elem_of_cons | rewrite elem_of_app | rewrite elem_of_nil];
  intuition (try discriminate; try congruence).

Section Shell.
Context {W : Type} (ext : External W).

Lemma bind_ok {A B} (c : M W A) (k : A -> M W B) s a s1 t1 :
  c s = (Ok a, s1, t1) ->
  bind c k s = (let '(r, s2, t2) := k a s1 in (r, s2, t1 ++ t2)).
Proof. intros H. unfold bind. rewrite H. reflexivity. Qed.

Lemma bind_raised {A B} (c : M W A) (k : A -> M W B) s e s1 t1 :
  c s = (Raised e, s1, t1) -> bind c k s = (Raised e, s1, t1).
Proof. intros H. unfold bind. rewrite H. reflexivity. Qed.

Lemma keeps_ret {A} (a : A) : keeps_locals (@ret W A a).
Proof. intros s r s' t [= _ <- _]. reflexivity. Qed.

Lemma keeps_raise {A} e : keeps_locals (@raise W A e).
Proof. intros s r s' t [= _ <- _]. reflexivity. Qed.

Lemma keeps_lift {A} (x : result A) : keeps_locals (@lift W A x).
Proof. intros s r s' t [= _ <- _]. reflexivity. Qed.

Lemma keeps_emit ev : keeps_locals (@emit W ev).
Proof. intros s r s' t [= _ <- _]. reflexivity. Qed.

Lemma keeps_call {A} ev (f : W -> result A * W) : keeps_locals (call ev f).
Proof.
  intros s r s' t. unfold call. destruct (f (world s)) as [r0 w].
  intros [= _ <- _]. reflexivity.
Qed.

Lemma keeps_bind {A B} (c : M W A) (k : A -> M W B) :
  keeps_locals c -> (forall a, keeps_locals (k a)) -> keeps_locals (bind c k).
Proof.
  intros Hc Hk s r s' t. unfold bind.
  destruct (c s) as [[[a | e] s1] t1] eqn:Ec.
  - destruct (k a s1) as [[r2 s2] t2] eqn:Ek. intros [= _ <- _].
    rewrite (Hk _ _ _ _ _ Ek). exact (Hc _ _ _ _ Ec).
  - intros [= _ <- _]. exact (Hc _ _ _ _ Ec).
Qed.

Lemma keeps_for_each {A} (items : list A) (body : A -> M W unit) :
  (forall x, keeps_locals (body x)) -> keeps_locals (for_each items body).
Proof.
  intros Hb. induction items as [| x rest IH]; simpl.
  - apply keeps_ret.
  - apply keeps_bind; [apply Hb | intros _; exact IH].
Qed.

Lemma keeps_Path f : keeps_locals (@Path W f).
Proof. destruct f; simpl; first [apply keeps_ret | apply keeps_raise]. Qed.

Ltac keeps :=
  repeat first
    [ apply keeps_ret | apply keeps_raise | apply keeps_lift | apply keeps_emit
    | apply keeps_call | apply keeps_Path
    | apply keeps_for_each; intros ?
    | apply keeps_bind; [| intros ?]
    | match goal with |- keeps_locals (if ?b then _ else _) => destruct b end
    | match goal with |- keeps_locals (match ?l with [] => _ | _ :: _ => _ end) =>
        destruct l end ].

Lemma keeps_preview anon args : keeps_locals (preview ext anon args).
Proof. unfold preview, print. keeps. Qed.

Lemma keeps_upload anon args : keeps_locals (upload ext anon args).
Proof. unfold upload, print. keeps. Qed.

Lemma keeps_declined args f : keeps_locals (declined ext args f).
Proof. unfold declined, print. keeps. Qed.

Lemma keeps_download_item anon args res :
  keeps_locals (download_item ext anon args res).
Proof.
  unfold download_item, print.
  apply keeps_bind; [keeps | intros rec].
  apply keeps_bind; [apply keeps_declined | intros skip]. keeps.
Qed.

Lemma keeps_download anon args : keeps_locals (download ext anon args).
Proof.
  unfold download, download_resources.
  apply keeps_bind; [keeps | intros l].
  apply keeps_for_each. intros x. apply keeps_download_item.
Qed.

Lemma keeps_dispatch anon args : keeps_locals (dispatch ext anon args).
Proof.
  unfold dispatch. repeat case_decide;
    auto using keeps_preview, keeps_upload, keeps_download, keeps_raise.
Qed.

Lemma keeps_handler e : keeps_locals (handler ext e).
Proof.
  destruct e as [| | | m [body |] | | | | | |]; simpl; unfold print_stderr, load; keeps.
  all: try (intros s r s' t; destruct (module_folder (locals s));
            intros [= _ <- _]; reflexivity).
Qed.

(** When [setup] returns, [provider] is bound to the object it returns. *)
Lemma setup_binds_provider args s anon s1 t1 :
  setup ext args s = (Ok anon, s1, t1) -> provider (locals s1) = Some anon.
Proof.
  unfold setup, bind, call, bind_module_folder, bind_provider, ret. simpl.
  destruct (get_resource_path ext _ _) as [[folder | e] w0]; [simpl | discriminate].
  destruct (PixelDrain ext _ _) as [[[] | e] w1]; [simpl | discriminate].
  destruct (set_base_path ext _ _ _) as [[[] | e] w2]; [simpl | discriminate].
  destruct (add_handler ext _ _ _) as [[[] | e] w3]; [simpl | discriminate].
  intros [= <- <- _]. reflexivity.
Qed.

(** With [provider] bound, the [finally] clause restores the console and
    shuts the logger down, in that order. *)
Lemma finally_shuts_down s anon :
  provider (locals s) = Some anon ->
  finally ext s =
    (fst (shutdown ext anon (world s)),
     {| locals := locals s; world := snd (shutdown ext anon (world s)) |},
     [CallDeinit; CallShutdown]).
Proof.
  intros Hp. unfold finally, bind, emit, load, call. rewrite Hp. simpl.
  destruct (shutdown ext anon (world s)) as [[[] | e] w]; reflexivity.
Qed.

(** The [try] statement once [setup] has returned and the command has
    raised [e]: the handler's events, then the [finally] clause. *)
Lemma main_try_command_raised args s anon s1 t1 e s2 t2 r3 s3 t3 :
  setup ext args s = (Ok anon, s1, t1) ->
  dispatch ext anon args s1 = (Raised e, s2, t2) ->
  handler ext e s2 = (r3, s3, t3) ->
  main_try ext args s =
    (match fst (shutdown ext anon (world s3)) with
     | Ok _ => r3
     | Raised e' => Raised e'
     end,
     {| locals := locals s1; world := snd (shutdown ext anon (world s3)) |},
     t1 ++ t2 ++ t3 ++ [CallDeinit; CallShutdown]).
Proof.
  intros Hs Hd Hh. unfold main_try, try_finally, try_except.
  rewrite (bind_ok _ _ _ _ _ _ Hs), Hd, Hh.
  assert (Hl3 : locals s3 = locals s1).
  { rewrite (keeps_handler e _ _ _ _ Hh). exact (keeps_dispatch _ _ _ _ _ _ Hd). }
  assert (Hp : provider (locals s3) = Some anon).
  { rewrite Hl3. exact (setup_binds_provider _ _ _ _ _ Hs). }
  rewrite (finally_shuts_down _ _ Hp), Hl3.
  destruct (fst (shutdown ext anon (world s3))); rewrite <- !app_assoc; reflexivity.
Qed.

(** A command that is none of the three raises [NotImplementedError]. *)
Lemma dispatch_unrecognised anon args s :
  command args <> Some "preview" ->
  command args <> Some "upload" ->
  command args <> Some "download" ->
  dispatch ext anon args s = (Raised (NotImplementedError ""), s, []).
Proof. intros H1 H2 H3. unfold dispatch. repeat case_decide; done. Qed.

(** C1. When the command [main] dispatched raises, the handlers of [main]
    render the failure by its kind and swallow it: [KeyboardInterrupt]
    prints nothing; [NotImplementedError] prints the parser's help; an
    [HTTPError] prints the text of its response on the error stream; any
    other [Exception] prints its message on the error stream.  In each
    case nothing else is written, the [finally] clause follows, and the
    outcome of [main] is that of the logger's shutdown. *)
Theorem main_failure_rendering args s anon s1 t1 e s2 t2 :
  setup ext args s = (Ok anon, s1, t1) ->
  dispatch ext anon args s1 = (Raised e, s2, t2) ->
  let done := {| locals := locals s1; world := snd (shutdown ext anon (world s2)) |} in
  let outcome rendering :=
    main_try ext args s =
      (fst (shutdown ext anon (world s2)), done,
       t1 ++ t2 ++ rendering ++ [CallDeinit; CallShutdown]) in
  (e = KeyboardInterrupt -> outcome []) /\
  (forall msg, e = NotImplementedError msg -> outcome [PrintHelp]) /\
  (forall msg text, e = HTTPError msg (Some text) -> outcome [Stderr text]) /\
  (is_Exception e = true ->
   (forall msg, e <> NotImplementedError msg) ->
   (forall msg response, e <> HTTPError msg response) ->
   outcome [Stderr (exn_str e)]).
Proof.
  intros Hs Hd done outcome. subst done outcome. cbv beta.
  assert (Hgen : forall t3, handler ext e s2 = (Ok tt, s2, t3) ->
    main_try ext args s =
      (fst (shutdown ext anon (world s2)),
       {| locals := locals s1; world := snd (shutdown ext anon (world s2)) |},
       t1 ++ t2 ++ t3 ++ [CallDeinit; CallShutdown])).
  { intros t3 Hh. rewrite (main_try_command_raised _ _ _ _ _ _ _ _ _ _ _ Hs Hd Hh).
    destruct (fst (shutdown ext anon (world s2))) as [[] |]; reflexivity. }
  repeat split.
  - intros ->. apply Hgen. reflexivity.
  - intros msg ->. apply Hgen. reflexivity.
  - intros msg text ->. apply Hgen. reflexivity.
  - intros Hexc Hni Hhttp. apply Hgen.
    destruct e; simpl in *; try discriminate; try reflexivity.
    + exfalso. eapply Hni. reflexivity.
    + exfalso. eapply Hhttp. reflexivity.
Qed.

(** C2 (the path the code misses). When building the provider raises, the
    [finally] clause reads the unbound local [provider]: [main] ends with
    [UnboundLocalError] and the logger's shutdown is never called. *)
Theorem main_try_provider_unbound args s folder w0 e w1 :
  provider (locals s) = None ->
  get_resource_path ext (__package__ ext) (world s) = (Ok folder, w0) ->
  PixelDrain ext (kwargs ext args) w0 = (Raised e, w1) ->
  (exists msg, (main_try ext args s).1.1 = Raised (UnboundLocalError msg)) /\
  CallShutdown ∉ (main_try ext args s).2.
Proof.
  intros Hp Hg Hc.
  assert (Hsetup : exists s1,
    (anon <- setup ext args ;; dispatch ext anon args) s =
      (Raised e, s1, [CallGetResourcePath (__package__ ext);
                      CallPixelDrain (kwargs ext args)])
    /\ provider (locals s1) = None).
  { eexists. unfold setup, bind, call, bind_module_folder. simpl.
    rewrite Hg. simpl. rewrite Hc. simpl. split; [reflexivity | exact Hp]. }
  destruct Hsetup as (s1 & Hrun & Hp1).
  unfold main_try, try_finally, try_except. rewrite Hrun.
  destruct (handler ext e s1) as [[r3 s3] t3] eqn:Hh.
  assert (Hp3 : provider (locals s3) = None).
  { rewrite (keeps_handler e _ _ _ _ Hh). exact Hp1. }
  assert (Ht3 : CallShutdown ∉ t3).
  { clear -Hh. destruct e as [| | | m [body |] | | | | | |]; simpl in Hh;
      unfold print_stderr, emit, ret, raise, bind, load in Hh;
      try destruct (module_folder (locals s1)); simpl in Hh;
      inversion Hh; subst t3; events_membership. }
  unfold finally, bind, emit, load. rewrite Hp3. simpl. split.
  - eexists. reflexivity.
  - simpl. events_membership.
Qed.

(** *** The overwrite prompt of [download] *)

(** C3 (as the code has it). When the check is on, the previewed name
    exists and the user's answer to the prompt is read as "no", the
    iteration ends normally after the prompt: no exception is raised, no
    download is issued for the resource, and the loop goes on with the
    remaining resources. *)
Theorem declined_overwrite_skips anon args resource rest s rec name w1 answer w2 :
  check args = true ->
  anon_preview ext anon resource (world s) = (Ok rec, w1) ->
  dict_get rec "name" = PyStr name ->
  Path_exists ext name w1 = Ok true ->
  input ext overwrite_prompt w1 = (Ok answer, w2) ->
  str2bool ext answer = Ok false ->
  let s2 := {| locals := locals s; world := w2 |} in
  let t := [CallPreview resource; CallExists name;
            Stdout (overwrite_warning ext args); CallInput overwrite_prompt] in
  download_item ext anon args resource s = (Ok tt, s2, t) /\
  for_each (resource :: rest) (download_item ext anon args) s =
    (let '(r, s', t') := for_each rest (download_item ext anon args) s2 in
     (r, s', t ++ t')).
Proof.
  intros Hcheck Hprev Hname Hex Hin Hno s2 t.
  assert (Hitem : download_item ext anon args resource s = (Ok tt, s2, t)).
  { unfold download_item, declined, bind, call, print, emit, lift, ret, Path.
    rewrite Hprev. simpl. rewrite Hname, Hcheck. simpl. rewrite Hex. simpl.
    rewrite Hin. simpl. rewrite Hno. reflexivity. }
  split; [exact Hitem |].
  cbn [for_each]. rewrite (bind_ok _ _ _ _ _ _ Hitem). reflexivity.
Qed.

(** *** Provider operations per item *)

Lemma provider_ops_app t1 t2 :
  provider_ops (t1 ++ t2) = provider_ops t1 ++ provider_ops t2.
Proof. apply filter_app. Qed.

Lemma provider_ops_cons ev t :
  provider_ops (ev :: t) =
  if is_provider_op ev then ev :: provider_ops t else provider_ops t.
Proof.
  unfold provider_ops. destruct (is_provider_op ev) eqn:E.
  - rewrite filter_cons_True by exact E. reflexivity.
  - rewrite filter_cons_False by (rewrite E; discriminate). reflexivity.
Qed.

Lemma provider_ops_nil : provider_ops [] = [].
Proof. reflexivity. Qed.

Ltac ops := repeat first [rewrite provider_ops_cons | rewrite provider_ops_app
                         | rewrite provider_ops_nil]; cbn [is_provider_op].

(** The [preview] and [upload] commands issue one operation per item. *)
Lemma preview_ops_per_item anon args : forall s s' t,
  preview ext anon args s = (Ok tt, s', t) ->
  provider_ops t = map CallPreview (resource args).
Proof.
  unfold preview. induction (resource args) as [| res rest IH]; intros s s' t; simpl.
  - intros [= _ <-]. reflexivity.
  - unfold bind at 1. unfold bind at 1. unfold call at 1.
    destruct (anon_preview ext anon res (world s)) as [[rec | e] w1]; [| discriminate].
    unfold bind at 1.
    destruct ((if verbose args then ret (json_dumps ext rec)
               else lift (str_join "," (dict_values rec)))
                {| locals := locals s; world := w1 |})
      as [[[line | e] s1] t1] eqn:Hline; [| discriminate].
    assert (Ht1 : t1 = []).
    { revert Hline. unfold ret, lift. destruct (verbose args); intros [= _ _ <-]; reflexivity. }
    subst t1. unfold print, emit. simpl.
    destruct (for_each rest _ s1) as [[r2 s2] t2] eqn:Hrest.
    intros [= -> _ <-]. ops. rewrite (IH _ _ _ Hrest). reflexivity.
Qed.

Lemma upload_ops_per_item anon args : forall s s' t,
  upload ext anon args s = (Ok tt, s', t) ->
  provider_ops t = map (fun f => CallUpload f (verbose args)) (file args).
Proof.
  unfold upload. induction (file args) as [| f rest IH]; intros s s' t; simpl.
  - intros [= _ <-]. reflexivity.
  - unfold bind at 1. unfold bind at 1. unfold call at 1.
    destruct (anon_upload ext anon f (verbose args) (world s)) as [[[] | e] w1];
      [| discriminate].
    destruct ((if negb (verbose args) then ret tt
               else md5 <- call (CallChecksum (PyStr f)) (Checksum_compute ext (PyStr f)) ;;
                    print ("md5" +:+ tab +:+ Checksum_hash2string ext md5))
                {| locals := locals s; world := w1 |})
      as [[[[] | e] s1] t1] eqn:Hsum; [| discriminate].
    assert (Ht1 : provider_ops t1 = []).
    { revert Hsum. unfold ret, bind, call, print, emit.
      destruct (verbose args); simpl; [| intros [= _ <-]; reflexivity].
      destruct (Checksum_compute ext _ _) as [[md5 | e] w2]; [| discriminate].
      intros [= _ <-]. reflexivity. }
    destruct (for_each rest _ s1) as [[r2 s2] t2] eqn:Hrest.
    intros [= -> _ <-]. ops. rewrite Ht1, (IH _ _ _ Hrest). reflexivity.
Qed.

(** *** Joining the values of a preview record *)

Lemma join_from_non_str sep items : forall i,
  (exists v, v ∈ items /\ is_str v = false) ->
  exists msg, join_from i sep items = Raised (TypeError msg).
Proof.
  induction items as [| v rest IH]; intros i (x & Hin & Hx).
  - apply elem_of_nil in Hin as [].
  - destruct v as [| b | z | str]; simpl; try (eexists; reflexivity).
    apply elem_of_cons in Hin as [-> | Hin]; [discriminate |].
    destruct (IH (S i)) as [msg ->]; eauto.
Qed.

(** C9. With [verbose] off, the [preview] command raises [TypeError] as
    soon as the record previewed for its first resource holds a value
    that is not a string: it joins the record's values with [","]. *)
Theorem preview_non_string_value_raises anon args res rest s rec w1 :
  resource args = res :: rest ->
  verbose args = false ->
  anon_preview ext anon res (world s) = (Ok rec, w1) ->
  (exists v, v ∈ dict_values rec /\ is_str v = false) ->
  exists msg,
    preview ext anon args s =
      (Raised (TypeError msg), {| locals := locals s; world := w1 |},
       [CallPreview res]).
Proof.
  intros Hres Hv Hprev Hbad.
  destruct (join_from_non_str "," _ 0 Hbad) as [msg Hjoin].
  exists msg. unfold preview. rewrite Hres, Hv. cbn [for_each].
  unfold bind, call, lift, str_join. rewrite Hprev, Hjoin. reflexivity.
Qed.

(** *** Which file the checks of [download] look at *)

Lemma components_nonempty p : components p <> [].
Proof.
  destruct p as [| c rest]; simpl; [discriminate |].
  destruct (Ascii.eqb c "/"); [discriminate |].
  destruct (components rest); discriminate.
Qed.

Lemma components_no_slash p : has_slash p = false -> components p = [p].
Proof.
  induction p as [| c rest IH]; simpl; [reflexivity |].
  destruct (Ascii.eqb c "/"); simpl; [discriminate |].
  intros H. rewrite (IH H). reflexivity.
Qed.

Lemma components_app_slash a b :
  components (a +:+ "/" +:+ b) = components a ++ components b.
Proof.
  induction a as [| c rest IH]; simpl; [reflexivity |].
  destruct (Ascii.eqb c "/"); simpl; [rewrite IH; reflexivity |].
  rewrite IH. pose proof (components_nonempty rest) as Hne.
  destruct (components rest); [congruence | reflexivity].
Qed.

Lemma is_absolute_app a b : a <> "" -> is_absolute (a +:+ b) = is_absolute a.
Proof. destruct a; [congruence | reflexivity]. Qed.

Lemma is_file_name_spec n :
  is_file_name n = true ->
  has_slash n = false /\ n <> "" /\ n <> "." /\ n <> "..".
Proof.
  unfold is_file_name. rewrite !andb_true_iff, !negb_true_iff, !bool_decide_eq_false.
  tauto.
Qed.

Lemma enter_file_name dir n : is_file_name n = true -> enter dir n = dir ++ [n].
Proof.
  intros H. apply is_file_name_spec in H as (_ & H1 & H2 & H3).
  unfold enter. repeat case_decide; congruence.
Qed.

Lemma file_name_relative n : is_file_name n = true -> is_absolute n = false.
Proof.
  intros H. apply is_file_name_spec in H as (H & _).
  destruct n as [| c rest]; [reflexivity |]. simpl in *.
  destruct (Ascii.eqb c "/"); [discriminate | reflexivity].
Qed.

(** A bare name is looked up in the working directory. *)
Lemma resolve_file_name cwd n :
  is_file_name n = true -> resolve cwd n = cwd ++ [n].
Proof.
  intros H. unfold resolve. rewrite (file_name_relative _ H).
  rewrite components_no_slash.
  - simpl. apply enter_file_name, H.
  - apply is_file_name_spec, H.
Qed.

(** Joined with a directory, it is looked up in that directory. *)
Lemma resolve_joinpath cwd dest n :
  is_file_name n = true ->
  resolve cwd (joinpath dest n) = resolve cwd dest ++ [n].
Proof.
  intros H. unfold joinpath. rewrite (file_name_relative _ H).
  case_decide as Hd.
  - subst dest. rewrite (resolve_file_name _ _ H). reflexivity.
  - unfold resolve. rewrite (is_absolute_app _ _ Hd), components_app_slash.
    rewrite fold_left_app. rewrite (components_no_slash n).
    + simpl. apply enter_file_name, H.
    + apply is_file_name_spec, H.
Qed.

(** The events of one iteration of [download] that proceeds to the
    prompt-free end, listed for every outcome of the calls. *)
Lemma download_item_paths anon args res s rec w1 name :
  anon_preview ext anon res (world s) = (Ok rec, w1) ->
  dict_get rec "name" = PyStr name ->
  let run := download_item ext anon args res s in
  (forall p, CallExists p ∈ run.2 -> p = name) /\
  (forall f, CallChecksum f ∈ run.2 -> f = PyStr name) /\
  (forall r d v, CallDownload r d v ∈ run.2 -> r = res /\ d = path args) /\
  (check args = true -> CallExists name ∈ run.2) /\
  (verbose args = true -> run.1.1 = Ok tt ->
   (exists r d v, CallDownload r d v ∈ run.2) -> CallChecksum (PyStr name) ∈ run.2).
Proof.
  intros Hprev Hname run. subst run.
  unfold download_item, declined, bind, call, print, emit, lift, ret, Path.
  rewrite Hprev. simpl. rewrite Hname.
  destruct (check args); simpl.
  - destruct (Path_exists ext name w1) as [[|] | e0]; simpl;
      [| | repeat split; intros; events_membership].
    + destruct (input ext overwrite_prompt w1) as [[answer | e] w2]; simpl.
      * destruct (str2bool ext answer) as [[|] | e]; simpl.
        -- destruct (anon_download ext _ _ _ _ _) as [[[] | e] w3]; simpl.
           ++ destruct (verbose args); simpl.
              ** destruct (Checksum_compute ext _ _) as [[md5 | e] w4]; simpl;
                   repeat split; intros; events_membership.
              ** repeat split; intros; events_membership.
           ++ repeat split; intros; events_membership.
        -- repeat split; intros; events_membership.
        -- repeat split; intros; events_membership.
      * repeat split; intros; events_membership.
    + destruct (anon_download ext _ _ _ _ _) as [[[] | e] w3]; simpl.
      * destruct (verbose args); simpl.
        -- destruct (Checksum_compute ext _ _) as [[md5 | e] w4]; simpl;
             repeat split; intros; events_membership.
        -- repeat split; intros; events_membership.
      * repeat split; intros; events_membership.
  - destruct (anon_download ext _ _ _ _ _) as [[[] | e] w3]; simpl.
    + destruct (verbose args); simpl.
      * destruct (Checksum_compute ext _ _) as [[md5 | e] w4]; simpl;
          repeat split; intros; events_membership.
      * repeat split; intros; events_membership.
    + repeat split; intros; events_membership.
Qed.

(** C10. In [download], the existence check and the MD5 computation are
    handed the previewed name as it is, so the system looks it up in the
    working directory, while the download goes to [args.path].  For a
    bare file name and a destination other than the working directory,
    every path the iteration checks or hashes is another file than the
    one written. *)
Theorem download_checks_working_directory anon args res s rec w1 name cwd :
  anon_preview ext anon res (world s) = (Ok rec, w1) ->
  dict_get rec "name" = PyStr name ->
  is_file_name name = true ->
  resolve cwd (path args) <> cwd ->
  let run := download_item ext anon args res s in
  let written := resolve cwd (download_target (path args) res (PyStr name)) in
  written = resolve cwd (path args) ++ [name] /\
  (forall p, CallExists p ∈ run.2 ->
     resolve cwd p = cwd ++ [name] /\ resolve cwd p <> written) /\
  (forall f, CallChecksum f ∈ run.2 ->
     exists p, f = PyStr p /\ resolve cwd p = cwd ++ [name] /\ resolve cwd p <> written) /\
  (forall r d v, CallDownload r d v ∈ run.2 -> r = res /\ d = path args) /\
  (check args = true -> CallExists name ∈ run.2) /\
  (verbose args = true -> run.1.1 = Ok tt ->
   (exists r d v, CallDownload r d v ∈ run.2) -> CallChecksum (PyStr name) ∈ run.2).
Proof.
  intros Hprev Hname Hfile Hdiff run written.
  destruct (download_item_paths anon args res s rec w1 name Hprev Hname)
    as (Hex & Hsum & Hdl & Hchecked & Hhashed).
  assert (Hw : written = resolve cwd (path args) ++ [name]).
  { subst written. simpl. apply resolve_joinpath, Hfile. }
  assert (Hother : resolve cwd name = cwd ++ [name] /\ resolve cwd name <> written).
  { rewrite Hw, (resolve_file_name _ _ Hfile). split; [reflexivity |].
    intros Heq. apply app_inj_tail in Heq as [Heq _]. congruence. }
  split; [exact Hw |]. split; [| split; [| split; [| split]]].
  - intros p Hp. rewrite (Hex p Hp). exact Hother.
  - intros f Hf. exists name. split; [exact (Hsum f Hf) | exact Hother].
  - exact Hdl.
  - exact Hchecked.
  - exact Hhashed.
Qed.

(** *** The [finally] clause when the provider was built *)

(** Once [PixelDrain(...)] has returned, whatever happens next in the
    [try] statement, the run ends with the console restored and the
    logger's shutdown called. *)
Lemma main_try_shuts_down args s folder w0 w1 :
  get_resource_path ext (__package__ ext) (world s) = (Ok folder, w0) ->
  PixelDrain ext (kwargs ext args) w0 = (Ok tt, w1) ->
  exists t, (main_try ext args s).2 = t ++ [CallDeinit; CallShutdown].
Proof.
  intros Hg Hc.
  assert (Hany : forall k : Kwargs -> M W unit,
    (forall a, keeps_locals (k a)) -> forall r s1 t1,
    (anon <- setup ext args ;; k anon) s = (r, s1, t1) ->
    provider (locals s1) = Some (kwargs ext args)).
  { intros k Hk r s1 t1.
    unfold setup, bind, call, bind_module_folder, bind_provider, ret. simpl.
    rewrite Hg. simpl. rewrite Hc. simpl.
    destruct (set_base_path ext _ _ _) as [[[] | e] w2]; simpl;
      [| intros [= _ <- _]; reflexivity].
    destruct (add_handler ext _ _ _) as [[[] | e] w3]; simpl;
      [| intros [= _ <- _]; reflexivity].
    destruct (k _ _) as [[r2 s2] t2] eqn:Hd.
    intros [= _ <- _]. rewrite (Hk _ _ _ _ _ Hd). reflexivity. }
  pose proof (Hany (fun anon => dispatch ext anon args)
                   (fun a => keeps_dispatch a args)) as Hbody.
  unfold main_try, try_finally, try_except.
  destruct ((anon <- setup ext args ;; dispatch ext anon args) s)
    as [[[[] | e] s1] t1] eqn:Hrun.
  - rewrite (finally_shuts_down _ _ (Hbody _ _ _ eq_refl)).
    destruct (shutdown ext _ _) as [[[] | e] w]; simpl; eexists; reflexivity.
  - destruct (handler ext e s1) as [[r3 s3] t3] eqn:Hh.
    assert (Hp : provider (locals s3) = Some (kwargs ext args)).
    { rewrite (keeps_handler e _ _ _ _ Hh). exact (Hbody _ _ _ eq_refl). }
    rewrite (finally_shuts_down _ _ Hp).
    destruct (shutdown ext _ _) as [[[] | e'] w]; simpl; eexists; reflexivity.
Qed.

End Shell.

(** ** Runs in the scripted world *)

(** A provider that answers every preview with an HTTP failure. *)
Lemma main_failure_rendering_witness :
  let args := Mock.args_preview ["abc123"] false in
  let w := {| Mock.argv := args; Mock.construction := Ok tt;
              Mock.served := fun _ =>
                Raised (HTTPError "404 Client Error" (Some "file not found"));
              Mock.existing := []; Mock.keyboard := [] |} in
  main_try Mock.ext args (initial w) =
    (Ok tt,
     {| locals := {| module_folder := Some "/home/user/.anonpy";
                     provider := Some (kwargs Mock.ext args) |};
        world := w |},
     [CallGetResourcePath "anonpy"; CallPixelDrain (kwargs Mock.ext args);
      CallSetBasePath "/home/user/.anonpy"; CallAddHandler "cli.log";
      CallPreview "abc123"; Stderr "file not found"; CallDeinit; CallShutdown]).
Proof.
  intros args w.
  pose proof (main_failure_rendering Mock.ext args (initial w)
                (kwargs Mock.ext args) _ _
                (HTTPError "404 Client Error" (Some "file not found")) _ _
                eq_refl eq_refl) as H.
  destruct H as (_ & _ & Hhttp & _).
  exact (Hhttp _ _ eq_refl).
Defined.

(** C2 at a concrete run: the user interrupts while the provider is being
    built. *)
Lemma main_try_provider_unbound_witness :
  let args := Mock.args_preview ["abc123"] false in
  let w := {| Mock.argv := args; Mock.construction := Raised KeyboardInterrupt;
              Mock.served := fun res => Ok (Mock.file_info res);
              Mock.existing := []; Mock.keyboard := [] |} in
  (exists msg, (main_try Mock.ext args (initial w)).1.1 = Raised (UnboundLocalError msg)) /\
  CallShutdown ∉ (main_try Mock.ext args (initial w)).2.
Proof.
  intros args w.
  exact (main_try_provider_unbound Mock.ext args (initial w) _ _ KeyboardInterrupt _
           eq_refl eq_refl eq_refl).
Defined.

Example main_interrupted_while_building :
  let args := Mock.args_preview ["abc123"] false in
  let w := {| Mock.argv := args; Mock.construction := Raised KeyboardInterrupt;
              Mock.served := fun res => Ok (Mock.file_info res);
              Mock.existing := []; Mock.keyboard := [] |} in
  (main Mock.ext (initial w)).1.1 =
    Raised (UnboundLocalError
      "cannot access local variable 'provider' where it is not associated with a value")
  /\ (main Mock.ext (initial w)).2 =
    [CallParseArgs; CallGetResourcePath "anonpy"; CallPixelDrain (kwargs Mock.ext args);
     CallDeinit].
Proof. split; vm_compute; reflexivity. Qed.

(** C3, as stated, fails: the file exists, the check is on and the user
    answers [n]; [download] returns normally, without a download and
    without [InterruptedError]. *)
Lemma declined_overwrite_no_InterruptedError :
  let args := Mock.args_download ["abc123"] "/tmp/dl" false true in
  let run := download Mock.ext Mock.anon args
               (initial (Mock.world args ["abc123.txt"] ["n"])) in
  run.2 = [CallPreview "abc123"; CallExists "abc123.txt";
           Stdout "Warning: A file with the same name already exists in '/tmp/dl'.";
           CallInput "Proceed with download? [Y/n] "] /\
  run.1.1 = Ok tt /\
  ~ (exists msg, run.1.1 = Raised (InterruptedError msg)).
Proof.
  intros args run. split; [vm_compute; reflexivity |].
  split; [vm_compute; reflexivity |].
  intros [msg H]. vm_compute in H. discriminate H.
Qed.

Lemma declined_overwrite_skips_witness :
  let args := Mock.args_download ["abc123"; "def456"] "/tmp/dl" false true in
  let s := initial (Mock.world args ["abc123.txt"] ["n"]) in
  let s2 := initial (Mock.world args ["abc123.txt"] []) in
  let t := [CallPreview "abc123"; CallExists "abc123.txt";
            Stdout (overwrite_warning Mock.ext args); CallInput overwrite_prompt] in
  download_item Mock.ext Mock.anon args "abc123" s = (Ok tt, s2, t) /\
  for_each ["abc123"; "def456"] (download_item Mock.ext Mock.anon args) s =
    (let '(r, s', t') := for_each ["def456"] (download_item Mock.ext Mock.anon args) s2 in
     (r, s', t ++ t')).
Proof.
  intros args s s2 t.
  exact (declined_overwrite_skips Mock.ext Mock.anon args "abc123" ["def456"] s
           (Mock.file_info "abc123") "abc123.txt" _ "n" _
           eq_refl eq_refl eq_refl eq_refl eq_refl eq_refl).
Defined.

(** C4, as stated, fails: of two resource identifiers, the first (whose
    overwrite prompt is declined) gets a preview and no download, the
    second a preview and a download, two provider operations. *)
Lemma download_not_one_operation_per_item :
  let args := Mock.args_download ["abc123"; "def456"] "/tmp/dl" false true in
  let run := download Mock.ext Mock.anon args
               (initial (Mock.world args ["abc123.txt"] ["n"])) in
  run.1.1 = Ok tt /\
  ops_for "abc123" run.2 = [CallPreview "abc123"] /\
  ops_for "def456" run.2 = [CallPreview "def456"; CallDownload "def456" "/tmp/dl" false] /\
  ~ (forall item, item ∈ resource args -> length (ops_for item run.2) = 1).
Proof.
  intros args run. split; [vm_compute; reflexivity |].
  split; [vm_compute; reflexivity |].
  split; [vm_compute; reflexivity |].
  intros H. specialize (H "def456").
  assert (Hin : "def456" ∈ resource args).
  { apply (bool_decide_unpack _). vm_compute. exact I. }
  specialize (H Hin). vm_compute in H. discriminate H.
Qed.

Example download_ops_after_decline :
  let args := Mock.args_download ["abc123"; "def456"] "/tmp/dl" false true in
  provider_ops (download Mock.ext Mock.anon args
                  (initial (Mock.world args ["abc123.txt"] ["n"]))).2 =
  [CallPreview "abc123"; CallPreview "def456"; CallDownload "def456" "/tmp/dl" false].
Proof. vm_compute. reflexivity. Qed.

Lemma preview_non_string_value_raises_witness :
  let args := Mock.args_preview ["abc123"] false in
  let s := initial (Mock.world args [] []) in
  exists msg,
    preview Mock.ext Mock.anon args s =
      (Raised (TypeError msg), {| locals := locals s; world := world s |},
       [CallPreview "abc123"]).
Proof.
  intros args s.
  apply (preview_non_string_value_raises Mock.ext Mock.anon args "abc123" [] s
           (Mock.file_info "abc123") (world s) eq_refl eq_refl eq_refl).
  exists (PyBool true). split; [| reflexivity].
  apply (bool_decide_unpack _). vm_compute. exact I.
Defined.

Example preview_of_file_info :
  let args := Mock.args_preview ["abc123"] false in
  (preview Mock.ext Mock.anon args (initial (Mock.world args [] []))).1.1 =
  Raised (TypeError "sequence item 2: expected str instance, int found").
Proof. vm_compute. reflexivity. Qed.

Lemma download_checks_working_directory_witness :
  let args := Mock.args_download ["abc123"] "/tmp/dl" true true in
  let s := initial (Mock.world args ["abc123.txt"] ["y"]) in
  let cwd := ["home"; "user"] in
  let run := download_item Mock.ext Mock.anon args "abc123" s in
  let written := resolve cwd (download_target (path args) "abc123" (PyStr "abc123.txt")) in
  written = resolve cwd (path args) ++ ["abc123.txt"] /\
  (forall p, CallExists p ∈ run.2 ->
     resolve cwd p = cwd ++ ["abc123.txt"] /\ resolve cwd p <> written) /\
  (forall f, CallChecksum f ∈ run.2 ->
     exists p, f = PyStr p /\ resolve cwd p = cwd ++ ["abc123.txt"] /\
               resolve cwd p <> written) /\
  (forall r d v, CallDownload r d v ∈ run.2 -> r = "abc123" /\ d = path args) /\
  (check args = true -> CallExists "abc123.txt" ∈ run.2) /\
  (verbose args = true -> run.1.1 = Ok tt ->
   (exists r d v, CallDownload r d v ∈ run.2) -> CallChecksum (PyStr "abc123.txt") ∈ run.2).
Proof.
  intros args s cwd.
  apply (download_checks_working_directory Mock.ext Mock.anon args "abc123" s
           (Mock.file_info "abc123") (world s) "abc123.txt" cwd
           eq_refl eq_refl eq_refl).
  vm_compute. discriminate.
Defined.

Example download_checks_which_files :
  let args := Mock.args_download ["abc123"] "/tmp/dl" true true in
  let run := download_item Mock.ext Mock.anon args "abc123"
               (initial (Mock.world args ["abc123.txt"] ["y"])) in
  resolve ["home"; "user"] "abc123.txt" = ["home"; "user"; "abc123.txt"] /\
  resolve ["home"; "user"] (download_target "/tmp/dl" "abc123" (PyStr "abc123.txt")) =
    ["tmp"; "dl"; "abc123.txt"] /\
  run.2 = [CallPreview "abc123"; CallExists "abc123.txt";
           Stdout "Warning: A file with the same name already exists in '/tmp/dl'.";
           CallInput "Proceed with download? [Y/n] ";
           CallDownload "abc123" "/tmp/dl" true;
           CallChecksum (PyStr "abc123.txt");
           Stdout ("file" +:+ tab +:+ "abc123.txt");
           Stdout ("md5" +:+ tab +:+ "d41d8cd98f00b204e9800998ecf8427e")].
Proof. repeat split; vm_compute; reflexivity. Qed.


(** * Properties of the provider-abstraction client *)

Section Logging.
Import Core.

Lemma get_log_history_persisted name l :
  get_log_history name l = inr (persisted (log_path l name) l).
Proof. reflexivity. Qed.

Lemma log_path_inj l : Inj (=) (=) (log_path l).
Proof.
  intros a b H. unfold log_path in H.
  apply (inj (String.app (base_path l))) in H.
  apply (inj (String.app "/")) in H. exact H.
Qed.

Lemma append_record_lookup r p d q :
  default [] (append_record r p d !! q) =
  if decide (p = q) then default [] (d !! q) ++ [r] else default [] (d !! q).
Proof.
  unfold append_record. case_decide as E.
  - subst q. rewrite lookup_insert_eq. reflexivity.
  - rewrite lookup_insert_ne by exact E. reflexivity.
Qed.

(** Writing a record to the files of [names] only appends, and does
    append to each of them. *)
Lemma write_all_appends r l names d q :
  exists extra,
    default [] (foldr (fun name d => append_record r (log_path l name) d) d names !! q)
      = default [] (d !! q) ++ extra /\
    (forall h, h ∈ names -> q = log_path l h -> extra <> []).
Proof.
  induction names as [| name rest IH]; simpl.
  - exists []. split; [by rewrite app_nil_r |]. intros h Hh. by apply elem_of_nil in Hh.
  - destruct IH as (extra & Heq & Hne). rewrite append_record_lookup, Heq.
    case_decide as E.
    + exists (extra ++ [r]). split; [by rewrite app_assoc |].
      intros _ _ _. destruct extra; discriminate.
    + exists extra. split; [reflexivity |].
      intros h Hh Hq. apply elem_of_cons in Hh as [-> | Hh]; [congruence | eauto].
Qed.

(** Attaching a handler leaves its file in place (the test's
    [log_path.exists()]) and the handler in the active set. *)
Lemma add_handler_attaches name l :
  name ∈ handlers (add_handler name l) /\
  file_exists (log_path l name) (add_handler name l) = true.
Proof.
  unfold add_handler, file_exists. simpl. split.
  - case_decide; [assumption |]. apply elem_of_app. right. apply list_elem_of_singleton.
    reflexivity.
  - apply bool_decide_eq_true.
    destruct (disk l !! log_path l name) eqn:E; [rewrite E; eauto |].
    rewrite lookup_insert_eq. eauto.
Qed.

Lemma shutdown_idempotent l : shutdown (shutdown l) = shutdown l.
Proof. reflexivity. Qed.

(** A hidden record is formatted (the
    clock advances) and no file changes. *)
Lemma debug_hidden msg args l :
  disk (debug msg args true l) = disk l /\
  clock (debug msg args true l) = S (clock l) /\
  handlers (debug msg args true l) = handlers l.
Proof. repeat split. Qed.

Lemma grows_refl c : grows c c.
Proof.
  split; [repeat split |]. intros q. exists []. split; [by rewrite app_nil_r | done].
Qed.

Lemma grows_trans c1 c2 c3 : grows c1 c2 -> grows c2 c3 -> grows c1 c3.
Proof.
  intros [(Ha & Hb & Hc) H12] [(Ha' & Hb' & Hc') H23]. split.
  - repeat split; congruence.
  - intros q. destruct (H12 q) as (e1 & E1 & N1). destruct (H23 q) as (e2 & E2 & N2).
    exists (e1 ++ e2). split; [by rewrite E2, E1, app_assoc |].
    intros Hoff. rewrite N1, N2 by congruence. reflexivity.
Qed.

(** One diagnostic record of the client. *)
Lemma log_spec msg args c :
  grows c (log msg args c) /\
  call_count (log msg args c) = call_count c /\
  (enable_logging c = true ->
   forall h, h ∈ handlers (logger c) ->
   exists extra,
     persisted (log_path (logger c) h) (logger (log msg args c)) =
       persisted (log_path (logger c) h) (logger c) ++ extra /\ extra <> []).
Proof.
  unfold log, persisted. simpl. destruct (enable_logging c) eqn:Hflag; simpl.
  - split; [| split; [reflexivity |]].
    + split; [repeat split; simpl; congruence |].
      intros q. destruct (write_all_appends
        {| timestamp := clock (logger c); message := percent_format msg args |}
        (logger c) (handlers (logger c)) (disk (logger c)) q) as (extra & E & _).
      exists extra. split; [exact E | intros ?; congruence].
    + intros _ h Hh. destruct (write_all_appends
        {| timestamp := clock (logger c); message := percent_format msg args |}
        (logger c) (handlers (logger c)) (disk (logger c))
        (log_path (logger c) h)) as (extra & E & Hne).
      exists extra. split; [exact E | eauto].
  - split; [| split; [reflexivity | intros ?; congruence]].
    split; [repeat split; simpl; congruence |].
    intros q. exists []. split; [by rewrite app_nil_r | done].
Qed.

Lemma log_grows msg args c : grows c (log msg args c).
Proof. apply log_spec. Qed.

Lemma log_call_count msg args c : call_count (log msg args c) = call_count c.
Proof. reflexivity. Qed.

(** Entering an operation counts it and, with logging on, leaves a
    record in the file of every attached handler. *)
Lemma enter_operation_spec kind subject c :
  grows c (enter_operation kind subject c) /\
  call_count (enter_operation kind subject c) = S (call_count c) /\
  (enable_logging c = true ->
   forall h, h ∈ handlers (logger c) ->
   exists extra,
     persisted (log_path (logger c) h) (logger (enter_operation kind subject c)) =
       persisted (log_path (logger c) h) (logger c) ++ extra /\ extra <> []).
Proof.
  unfold enter_operation.
  set (c1 := {| api := api c; endpoint := endpoint c;
                enable_logging := enable_logging c; logger := logger c;
                call_count := S (call_count c) |}).
  destruct (log_spec "%s %s" [kind; subject] c1) as (Hg & Hc & Hrec).
  split; [| split].
  - destruct Hg as [Hs Hq]. split; [exact Hs | exact Hq].
  - exact Hc.
  - exact Hrec.
Qed.

(** After it was entered, an operation only logs. *)
Lemma run_after_enter p op c :
  exists kind subject,
    grows (enter_operation kind subject c) (run p op c) /\
    call_count (run p op c) = call_count (enter_operation kind subject c).
Proof.
  destruct op as [resource | file | resource dest]; cbn [run].
  - exists "preview", resource. unfold preview.
    set (c1 := enter_operation "preview" resource c).
    repeat case_match; cbn [snd];
      (split; [first [apply grows_refl | apply log_grows] | reflexivity]).
  - exists "upload", file. unfold upload.
    set (c1 := enter_operation "upload" file c).
    repeat case_match; cbn [snd];
      (split; [first [apply grows_refl | apply log_grows] | reflexivity]).
  - exists "download", resource. unfold download.
    set (c1 := enter_operation "download" resource c).
    repeat case_match; cbn [snd];
      (split; [first [apply grows_refl | apply log_grows
                     | eapply grows_trans; apply log_grows] | reflexivity]).
Qed.

(** One operation of a client. *)
Lemma run_spec p op c :
  grows c (run p op c) /\
  call_count (run p op c) = S (call_count c) /\
  (enable_logging c = true ->
   forall h, h ∈ handlers (logger c) ->
   exists extra,
     persisted (log_path (logger c) h) (logger (run p op c)) =
       persisted (log_path (logger c) h) (logger c) ++ extra /\ extra <> []).
Proof.
  destruct (run_after_enter p op c) as (kind & subject & Hg & Hc).
  destruct (enter_operation_spec kind subject c) as (Hg0 & Hc0 & Hrec).
  split; [| split].
  - eapply grows_trans; eassumption.
  - congruence.
  - intros Hon h Hh. destruct (Hrec Hon h Hh) as (e1 & E1 & N1).
    destruct Hg as [(_ & _ & Hbase) Hq].
    destruct (Hq (log_path (logger c) h)) as (e2 & E2 & _).
    exists (e1 ++ e2). split.
    + rewrite E2, E1, app_assoc. reflexivity.
    + destruct e1; [contradiction | discriminate].
Qed.

Lemma run_all_spec p ops : forall c,
  grows c (run_all p ops c) /\
  call_count (run_all p ops c) = call_count c + length ops.
Proof.
  induction ops as [| op rest IH]; intros c; simpl.
  - split; [apply grows_refl | lia].
  - destruct (run_spec p op c) as (Hg & Hc & _).
    destruct (IH (run p op c)) as (Hg' & Hc').
    split; [eapply grows_trans; eassumption | lia].
Qed.

(** C5. With [enable_logging] off, any sequence of operations leaves the
    history of every attached handler empty while the call count goes up
    by one per operation; with it on, each operation appends at least one
    record to the history of every attached handler; a log call with the
    hide flag formats its record and persists nothing. *)
Theorem logging_suppression p c :
  (enable_logging c = false ->
   forall ops h, h ∈ handlers (logger c) ->
     get_log_history h (logger c) = inr [] ->
     get_log_history h (logger (run_all p ops c)) = inr [] /\
     call_count (run_all p ops c) = call_count c + length ops) /\
  (enable_logging c = true ->
   forall op h, h ∈ handlers (logger c) ->
     exists old extra,
       get_log_history h (logger c) = inr old /\
       get_log_history h (logger (run p op c)) = inr (old ++ extra) /\
       1 <= length extra /\
       call_count (run p op c) = S (call_count c)) /\
  (forall msg args h,
     get_log_history h (debug msg args true (logger c)) = get_log_history h (logger c) /\
     clock (debug msg args true (logger c)) = S (clock (logger c))).
Proof.
  split; [| split].
  - intros Hoff ops h Hh Hempty.
    destruct (run_all_spec p ops c) as ([(_ & _ & Hbase) Hq] & Hc).
    split; [| exact Hc].
    rewrite get_log_history_persisted in *. unfold log_path in *. rewrite Hbase.
    destruct (Hq (base_path (logger c) +:+ "/" +:+ h)) as (extra & E & N).
    rewrite E, (N Hoff), app_nil_r. exact Hempty.
  - intros Hon op h Hh.
    destruct (run_spec p op c) as ([(_ & _ & Hbase) _] & Hc & Hrec).
    destruct (Hrec Hon h Hh) as (extra & E & N).
    exists (persisted (log_path (logger c) h) (logger c)), extra.
    split; [reflexivity |]. split; [| split; [| exact Hc]].
    + rewrite get_log_history_persisted. unfold log_path in *. rewrite Hbase, E.
      reflexivity.
    + destruct extra; [contradiction | simpl; lia].
  - intros msg args h. split; reflexivity.
Qed.

(** C6. For an attached handler, [unlink] leaves no backing file, and
    the history then asked for is the empty sequence, not an error; the
    handler is no longer in the active set. *)
Theorem unlink_then_history_empty name l :
  name ∈ handlers l ->
  file_exists (log_path l name) (unlink name l) = false /\
  get_log_history name (unlink name l) = inr [] /\
  name ∉ handlers (unlink name l).
Proof.
  intros _. unfold file_exists, get_log_history, unlink, log_path. simpl.
  rewrite lookup_delete_eq. split; [| split].
  - apply bool_decide_eq_false. intros [x Hx]. discriminate.
  - reflexivity.
  - intros Hin. apply list_elem_of_filter in Hin as [Hne _]. contradiction.
Qed.

End Logging.


Section Scenarios.
Import Core.

Lemma check_status_200 b : check_status {| status := 200; body := b |} =
                           inr {| status := 200; body := b |}.
Proof. reflexivity. Qed.

(** C7. When the provider answers the preview of ["abc123"] with status
    200 and a 24-key record holding [success] true and [downloads] 1, the
    client's [preview] returns a record with [success] true, [downloads]
    1 and exactly 24 keys. *)
Theorem preview_returns_mocked_record p c url record :
  resolve_url (api c) (ep_preview (endpoint c)) (Some "abc123") = inr url ->
  http_get p url = {| status := 200; body := Json record |} ->
  NoDup (dict_keys record) ->
  length (dict_keys record) = 24 ->
  dict_lookup record "success" = Some (PyBool true) ->
  dict_lookup record "downloads" = Some (PyInt 1) ->
  exists result,
    (preview p "abc123" c).1 = inr result /\
    dict_get_default result "success" (PyBool false) = PyBool true /\
    dict_get_default result "downloads" (PyInt (-1)) = PyInt 1 /\
    length (dict_keys result) = 24.
Proof.
  intros Hurl Hget Hkeys Hlen Hsuccess Hdownloads.
  exists record. unfold preview. cbn [api endpoint enter_operation log with_logger].
  rewrite Hurl. cbn [api endpoint log with_logger]. rewrite Hget, check_status_200.
  cbn [body fst]. unfold dict_get_default. rewrite Hsuccess, Hdownloads. auto.
Qed.

Lemma stream_to_spec chunks : forall s,
  closed (stream_to chunks s) = closed s /\
  sink_path (stream_to chunks s) = sink_path s /\
  buffer (stream_to chunks s) = buffer s ++ concat chunks.
Proof.
  unfold stream_to. induction chunks as [| chunk rest IH]; intros s; simpl.
  - rewrite app_nil_r. auto.
  - destruct (IH (write chunk s)) as (Hc & Hp & Hb).
    rewrite Hc, Hp, Hb. simpl. rewrite app_assoc. auto.
Qed.

(** C8. When the provider streams non-empty bytes for the download of
    ["abc123"] into a writable directory, the client's [download] returns
    a sink that is not closed and whose buffered content is not empty. *)
Theorem download_returns_open_sink p c url chunks dest :
  resolve_url (api c) (ep_download (endpoint c)) (Some "abc123") = inr url ->
  http_get p url = {| status := 200; body := Stream chunks |} ->
  concat chunks <> [] ->
  writable p dest = true ->
  exists sink,
    (download p "abc123" dest c).1 = inr sink /\
    closed sink = false /\
    0 < length (getvalue sink) /\
    getvalue sink = concat chunks.
Proof.
  intros Hurl Hget Hbytes Hdir.
  unfold download. cbn [api endpoint enter_operation log with_logger].
  rewrite Hurl. cbn [api endpoint log with_logger]. rewrite Hget, check_status_200, Hdir.
  cbn [body negb fst]. eexists. split; [reflexivity |].
  match goal with |- context [stream_to chunks ?s] =>
    destruct (stream_to_spec chunks s) as (Hc & _ & Hb) end.
  unfold getvalue. rewrite Hc, Hb. simpl. repeat split.
  destruct (concat chunks); [contradiction | simpl; lia].
Qed.

End Scenarios.

(** ** The tests, run against the mocked provider *)

(** [test_preview] *)
Lemma preview_returns_mocked_record_witness :
  exists result,
    (Core.preview MockPixelDrain.provider "abc123" MockPixelDrain.anon).1 = inr result /\
    dict_get_default result "success" (PyBool false) = PyBool true /\
    dict_get_default result "downloads" (PyInt (-1)) = PyInt 1 /\
    length (dict_keys result) = 24.
Proof.
  apply (preview_returns_mocked_record MockPixelDrain.provider MockPixelDrain.anon
           (MockPixelDrain.api +:+ "/file/abc123/info") (Mock.file_info "abc123")).
  - reflexivity.
  - reflexivity.
  - apply (bool_decide_unpack _). vm_compute. exact I.
  - reflexivity.
  - reflexivity.
  - reflexivity.
Defined.

(** [test_download] *)
Lemma download_returns_open_sink_witness :
  exists sink,
    (Core.download MockPixelDrain.provider "abc123" MockPixelDrain.home
       MockPixelDrain.anon).1 = inr sink /\
    Core.closed sink = false /\
    0 < length (Core.getvalue sink) /\
    Core.getvalue sink = [Byte.x68; Byte.x65; Byte.x6c; Byte.x6c; Byte.x6f].
Proof.
  apply (download_returns_open_sink MockPixelDrain.provider MockPixelDrain.anon
           (MockPixelDrain.api +:+ "/file/abc123")
           [[Byte.x68; Byte.x65; Byte.x6c]; [Byte.x6c; Byte.x6f]] MockPixelDrain.home).
  - reflexivity.
  - reflexivity.
  - discriminate.
  - reflexivity.
Defined.

Example download_sink_path :
  match (Core.download MockPixelDrain.provider "abc123" MockPixelDrain.home
           MockPixelDrain.anon).1 with
  | inr sink => Core.sink_path sink = "/home/user/abc123.txt"
  | inl _ => False
  end.
Proof. vm_compute. reflexivity. Qed.

(** [test_preview_with_log_handler], "Act 1" and "Act 2". *)
Lemma logging_suppression_witness :
  let c := MockPixelDrain.anon_with_handler in
  let ops := [Core.Preview "abc123"; Core.Download "abc123" MockPixelDrain.home] in
  Core.get_log_history "test.json" (Core.logger (Core.run_all MockPixelDrain.provider ops c))
    = inr [] /\
  Core.call_count (Core.run_all MockPixelDrain.provider ops c) = 2 /\
  exists old extra,
    Core.get_log_history "test.json" (Core.logger (Core.set_enable_logging true c)) = inr old /\
    Core.get_log_history "test.json"
      (Core.logger (Core.run MockPixelDrain.provider (Core.Preview "abc123")
                      (Core.set_enable_logging true c))) = inr (old ++ extra) /\
    1 <= length extra /\
    Core.call_count (Core.run MockPixelDrain.provider (Core.Preview "abc123")
                       (Core.set_enable_logging true c)) = 1.
Proof.
  intros c ops.
  destruct (logging_suppression MockPixelDrain.provider c) as (Hoff & _ & _).
  destruct (logging_suppression MockPixelDrain.provider (Core.set_enable_logging true c))
    as (_ & Hon & _).
  assert (Hh : "test.json" ∈ Core.handlers (Core.logger c)).
  { apply (bool_decide_unpack _). vm_compute. exact I. }
  destruct (Hoff eq_refl ops "test.json" Hh eq_refl) as (Hempty & Hcount).
  split; [exact Hempty |]. split; [exact Hcount |].
  exact (Hon eq_refl (Core.Preview "abc123") "test.json" Hh).
Defined.

Example log_history_after_preview :
  let c := Core.set_enable_logging true MockPixelDrain.anon_with_handler in
  Core.get_log_history "test.json"
    (Core.logger (Core.run MockPixelDrain.provider (Core.Preview "abc123") c)) =
  inr [ {| Core.timestamp := 0; Core.message := "preview abc123" |};
        {| Core.timestamp := 1;
           Core.message := "GET https://mock.provider.com/api//file/abc123/info -> 200" |} ].
Proof. vm_compute. reflexivity. Qed.

Example hidden_debug_then_visible :
  let l := Core.logger MockPixelDrain.anon_with_handler in
  Core.get_log_history "test.json"
    (Core.debug "This shouldn't be logged." [] true l) = inr [] /\
  Core.get_log_history "test.json" (Core.debug "Hello, %s!" ["World"] false l) =
    inr [ {| Core.timestamp := 0; Core.message := "Hello, World!" |} ].
Proof. split; vm_compute; reflexivity. Qed.

(** [test_preview_with_log_handler], "Act 3". *)
Lemma unlink_then_history_empty_witness :
  let c := Core.run MockPixelDrain.provider (Core.Preview "abc123")
             (Core.set_enable_logging true MockPixelDrain.anon_with_handler) in
  let l := Core.logger c in
  Core.file_exists (Core.log_path l "test.json") l = true /\
  Core.file_exists (Core.log_path l "test.json") (Core.unlink "test.json" l) = false /\
  Core.get_log_history "test.json" (Core.unlink "test.json" l) = inr [] /\
  "test.json" ∉ Core.handlers (Core.unlink "test.json" l).
Proof.
  intros c l. split; [vm_compute; reflexivity |].
  apply (unlink_then_history_empty "test.json" l).
  apply (bool_decide_unpack _). vm_compute. exact I.
Defined.


(** * Further properties of the command line shell *)

Section Loops.
Context {W : Type} (ext : External W).

(** A loop over [l1 ++ l2] runs the loop over [l1], then, unless that
    raised, the loop over [l2]. *)
Lemma for_each_app {A} (l1 l2 : list A) (body : A -> M W unit) : forall s,
  for_each (l1 ++ l2) body s =
  match for_each l1 body s with
  | (Ok _, s1, t1) => let '(r, s2, t2) := for_each l2 body s1 in (r, s2, t1 ++ t2)
  | (Raised e, s1, t1) => (Raised e, s1, t1)
  end.
Proof.
  induction l1 as [| x rest IH]; intros s; simpl.
  - destruct (for_each l2 body s) as [[r s2] t2]. reflexivity.
  - unfold bind. destruct (body x s) as [[[[] | e] s1] t1]; [| reflexivity].
    rewrite IH. destruct (for_each rest body s1) as [[[[] | e] s2] t2]; [| reflexivity].
    destruct (for_each l2 body s2) as [[r s3] t3]. rewrite app_assoc. reflexivity.
Qed.

(** The loop ends at the first item whose body raises. *)
Lemma for_each_stops {A} (l1 l2 : list A) (body : A -> M W unit) x s s1 t1 e s2 t2 :
  for_each l1 body s = (Ok tt, s1, t1) ->
  body x s1 = (Raised e, s2, t2) ->
  for_each (l1 ++ x :: l2) body s = (Raised e, s2, t1 ++ t2).
Proof.
  intros H1 Hx. rewrite for_each_app, H1. simpl. unfold bind. rewrite Hx. reflexivity.
Qed.

(** What holds of every event of every iteration holds of every event of
    the loop. *)
Lemma for_each_Forall {A} (P : event -> Prop) (items : list A) (body : A -> M W unit) :
  (forall x s r s' t, x ∈ items -> body x s = (r, s', t) -> Forall P t) ->
  forall s r s' t, for_each items body s = (r, s', t) -> Forall P t.
Proof.
  induction items as [| x rest IH]; intros Hbody s r s' t; simpl.
  - intros [= _ _ <-]. constructor.
  - assert (Hrest' : forall y s r s' t, y ∈ rest -> body y s = (r, s', t) -> Forall P t).
    { intros y ? ? ? ? Hy. apply Hbody. apply list_elem_of_further, Hy. }
    unfold bind. destruct (body x s) as [[[[] | e] s1] t1] eqn:Hx.
    + destruct (for_each rest body s1) as [[r2 s2] t2] eqn:Hrest.
      intros [= _ _ <-]. apply Forall_app. split.
      * exact (Hbody _ _ _ _ _ (list_elem_of_here _ _) Hx).
      * exact (IH Hrest' _ _ _ _ Hrest).
    + intros [= _ _ <-]. exact (Hbody _ _ _ _ _ (list_elem_of_here _ _) Hx).
Qed.


Lemma preview_loop anon args :
  preview ext anon args = for_each (resource args) (preview_item ext anon args).
Proof. reflexivity. Qed.

Lemma upload_loop anon args :
  upload ext anon args = for_each (file args) (upload_item ext anon args).
Proof. reflexivity. Qed.

(** *** [preview] *)

Lemma join_from_strings sep vals : forall i,
  join_from i sep (PyStr <$> vals) = Ok (String.concat sep vals).
Proof.
  induction vals as [| v rest IH]; intros i; simpl; [reflexivity |].
  rewrite IH. destruct rest; reflexivity.
Qed.

(** X1. With [verbose] off, when the record previewed for the first
    resource holds strings only, [preview] prints one line for it, the
    values joined by commas in the record's order, and goes on with the
    remaining resources. *)
Theorem preview_prints_joined_values anon args res rest s rec w1 vals :
  resource args = res :: rest ->
  verbose args = false ->
  anon_preview ext anon res (world s) = (Ok rec, w1) ->
  dict_values rec = PyStr <$> vals ->
  preview ext anon args s =
    (let '(r, s', t') := for_each rest (preview_item ext anon args)
                           {| locals := locals s; world := w1 |} in
     (r, s', [CallPreview res; Stdout (String.concat "," vals)] ++ t')).
Proof.
  intros Hres Hv Hprev Hvals. rewrite preview_loop, Hres. cbn [for_each].
  assert (Hitem : preview_item ext anon args res s =
    (Ok tt, {| locals := locals s; world := w1 |},
     [CallPreview res; Stdout (String.concat "," vals)])).
  { unfold preview_item, bind, call, lift, print, emit, str_join.
    rewrite Hprev, Hv, Hvals, join_from_strings. reflexivity. }
  rewrite (bind_ok _ _ _ _ _ _ Hitem). reflexivity.
Qed.

(** With [verbose] on, the record is printed as JSON, strings or not. *)
Lemma preview_item_verbose anon args res s rec w1 :
  verbose args = true ->
  anon_preview ext anon res (world s) = (Ok rec, w1) ->
  preview_item ext anon args res s =
    (Ok tt, {| locals := locals s; world := w1 |},
     [CallPreview res; Stdout (json_dumps ext rec)]).
Proof.
  intros Hv Hprev. unfold preview_item, bind, call, ret, print, emit.
  rewrite Hprev, Hv. reflexivity.
Qed.


(** *** [upload] *)

Lemma upload_item_quiet anon args f s :
  verbose args = false ->
  upload_item ext anon args f s =
    ((anon_upload ext anon f false (world s)).1,
     {| locals := locals s; world := (anon_upload ext anon f false (world s)).2 |},
     [CallUpload f false]).
Proof.
  intros Hv. unfold upload_item, bind, call, ret. rewrite Hv. simpl.
  destruct (anon_upload ext anon f false (world s)) as [[[] | e] w]; reflexivity.
Qed.

Lemma upload_loop_quiet anon args files :
  verbose args = false ->
  forall s r s' t,
    for_each files (upload_item ext anon args) s = (r, s', t) ->
    exists n, n <= length files /\
      t = (fun f => CallUpload f false) <$> take n files /\
      (r = Ok tt -> n = length files).
Proof.
  intros Hv. induction files as [| f rest IH]; intros s r s' t; simpl.
  - intros [= <- _ <-]. exists 0. auto.
  - unfold bind. rewrite (upload_item_quiet _ _ _ _ Hv).
    destruct (anon_upload ext anon f false (world s)) as [[[] | e] w]; simpl.
    + destruct (for_each rest _ _) as [[r2 s2] t2] eqn:Hrest.
      intros [= <- _ <-]. destruct (IH _ _ _ _ Hrest) as (n & Hn & -> & Hok).
      exists (S n). split; [lia |]. split; [reflexivity |]. intros H. rewrite (Hok H).
      reflexivity.
    + intros [= <- _ <-]. exists 1. split; [lia |]. split; [reflexivity | discriminate].
Qed.

(** X3. With [verbose] off, [upload] does nothing but upload: whatever the
    outcome, its events are the uploads of the first files of [args.file],
    in order and without a progress bar; no checksum is computed and
    nothing is printed.  When it ends normally every file was uploaded. *)
Theorem upload_quiet_only_uploads anon args s r s' t :
  verbose args = false ->
  upload ext anon args s = (r, s', t) ->
  (exists n, n <= length (file args) /\
     t = (fun f => CallUpload f false) <$> take n (file args)) /\
  (r = Ok tt -> t = (fun f => CallUpload f false) <$> file args).
Proof.
  intros Hv. rewrite upload_loop. intros Hrun.
  destruct (upload_loop_quiet _ _ _ Hv _ _ _ _ Hrun) as (n & Hn & Ht & Hok).
  split; [eauto |]. intros H. rewrite Ht, (Hok H), firstn_all. reflexivity.
Qed.

Lemma upload_item_verbose anon args f s s' t :
  verbose args = true ->
  upload_item ext anon args f s = (Ok tt, s', t) ->
  exists w1 md5,
    anon_upload ext anon f true (world s) = (Ok tt, w1) /\
    Checksum_compute ext (PyStr f) w1 = (Ok md5, world s') /\
    t = upload_report ext f md5.
Proof.
  intros Hv. unfold upload_item, bind, call, print, emit. rewrite Hv. simpl.
  destruct (anon_upload ext anon f true (world s)) as [[[] | e] w] eqn:Hup;
    [| discriminate].
  simpl. destruct (Checksum_compute ext (PyStr f) w) as [[md5 | e] w2] eqn:Hsum;
    [| discriminate].
  intros [= <- <-]. exists w, md5. simpl. auto.
Qed.

Lemma upload_chain_length anon files : forall w digests w',
  upload_chain ext anon files w digests w' -> length digests = length files.
Proof.
  induction files as [| f rest IH]; intros w [| d ds] w'; simpl; try tauto.
  intros (w1 & w2 & _ & _ & H). f_equal. exact (IH _ _ _ H).
Qed.

(** X4. With [verbose] on, a run of [upload] that ends normally consists,
    for each file of [args.file] in order, of its upload with a progress
    bar, the MD5 computation over that same path, and one printed line
    [md5<TAB>hex], where [hex] renders the digest [Checksum.compute]
    returned for that file in the world its upload left; nothing else
    happens. *)
Theorem upload_verbose_reports_each_file anon args s s' t :
  verbose args = true ->
  upload ext anon args s = (Ok tt, s', t) ->
  exists digests : list digest,
    upload_chain ext anon (file args) (world s) digests (world s') /\
    length digests = length (file args) /\
    t = concat (zip_with (upload_report ext) (file args) digests).
Proof.
  intros Hv. rewrite upload_loop. intros Hrun.
  assert (Hloop : exists digests,
    upload_chain ext anon (file args) (world s) digests (world s') /\
    t = concat (zip_with (upload_report ext) (file args) digests)).
  { revert s s' t Hrun.
    induction (file args) as [| f rest IH]; intros s s' t; simpl.
    - intros [= <- <-]. exists []. auto.
    - unfold bind.
      destruct (upload_item ext anon args f s) as [[[[] | e] s1] t1] eqn:Hitem;
        [| discriminate].
      destruct (for_each rest _ s1) as [[r2 s2] t2] eqn:Hrest.
      intros [= -> -> <-].
      destruct (upload_item_verbose _ _ _ _ _ _ Hv Hitem) as (w1 & md5 & Hup & Hsum & ->).
      destruct (IH _ _ _ Hrest) as (ds & Hchain & ->).
      exists (md5 :: ds). simpl. split; [| reflexivity].
      exists w1, (world s1). auto. }
  destruct Hloop as (digests & Hchain & Ht).
  exists digests. split; [exact Hchain |]. split; [| exact Ht].
  exact (upload_chain_length _ _ _ _ _ Hchain).
Qed.

(** *** [download] *)

Ltac run_item :=
  unfold download_item, declined, bind, call, print, emit, lift, ret, raise, Path;
  simpl.

(** X5. In one iteration of [download] the user is prompted exactly when
    the check flag is set, the previewed record has a string under [name],
    and a file of that name exists. *)
Theorem download_prompts_iff anon args res s rec w1 :
  anon_preview ext anon res (world s) = (Ok rec, w1) ->
  (exists q, CallInput q ∈ (download_item ext anon args res s).2) <->
  (check args = true /\
   exists p, dict_get rec "name" = PyStr p /\ Path_exists ext p w1 = Ok true).
Proof.
  intros Hprev. run_item. rewrite Hprev. simpl.
  destruct (check args); simpl.
  - destruct (dict_get rec "name") as [| b | z | p] eqn:Hname; simpl.
    + destruct (anon_download ext _ _ _ _ _) as [[[] | e] w2]; simpl;
        [destruct (verbose args); simpl;
         [destruct (Checksum_compute ext _ _) as [[md5 | e] w3]; simpl |] |];
        (split; [intros [q Hq]; events_membership
                | intros (_ & p & Hp & _); discriminate]).
    + split; [intros [q Hq]; events_membership | intros (_ & p & Hp & _); discriminate].
    + split; [intros [q Hq]; events_membership | intros (_ & p & Hp & _); discriminate].
    + destruct (Path_exists ext p w1) as [[|] | e0] eqn:Hex; simpl;
        [| | split; [intros [q Hq]; events_membership
                    | intros (_ & p' & Hp & Hex'); congruence]].
      * split; [intros _; eauto |]. intros _. exists overwrite_prompt.
        destruct (input ext overwrite_prompt w1) as [[answer | e] w2]; simpl;
          [| events_membership].
        destruct (str2bool ext answer) as [[|] | e]; simpl; [| events_membership ..].
        destruct (anon_download ext _ _ _ _ _) as [[[] | e] w3]; simpl;
          [| events_membership].
        destruct (verbose args); simpl; [| events_membership].
        destruct (Checksum_compute ext _ _) as [[md5 | e] w4]; simpl; events_membership.
      * destruct (anon_download ext _ _ _ _ _) as [[[] | e] w2]; simpl;
          [destruct (verbose args); simpl;
           [destruct (Checksum_compute ext _ _) as [[md5 | e] w3]; simpl |] |];
          (split; [intros [q Hq]; events_membership
                  | intros (_ & p' & Hp & Hex'); congruence]).
  - destruct (anon_download ext _ _ _ _ _) as [[[] | e] w2]; simpl;
      [destruct (verbose args); simpl;
       [destruct (Checksum_compute ext _ _) as [[md5 | e] w3]; simpl |] |];
      (split; [intros [q Hq]; events_membership | intros (Hc & _); discriminate]).
Qed.

Lemma declined_unchecked args f s :
  check args = false -> declined ext args f s = (Ok false, s, []).
Proof. intros Hc. unfold declined. rewrite Hc. reflexivity. Qed.

(** X6. With the check flag off, [download] never looks for an existing
    file and never reads from the terminal, whatever its outcome. *)
Theorem download_unchecked_never_asks anon args s r s' t :
  check args = false ->
  download ext anon args s = (r, s', t) ->
  Forall (fun ev => is_overwrite_check ev = false) t.
Proof.
  intros Hc. unfold download, bind.
  destruct (download_resources ext args s) as [[[resources | e] s0] t0] eqn:Hres.
  - destruct (for_each resources _ s0) as [[r1 s1] t1] eqn:Hloop.
    intros [= _ _ <-]. apply Forall_app. split.
    + revert Hres. unfold download_resources, call, ret.
      destruct (resource args); [destruct (read_file ext _ _) |];
        intros [= _ _ <-]; repeat constructor.
    + revert Hloop. apply for_each_Forall. clear -Hc. intros res s r s' t _.
      unfold download_item, bind, call, print, emit, ret.
      destruct (anon_preview ext anon res (world s)) as [[rec | e] w1]; simpl;
        [| intros [= _ _ <-]; repeat constructor].
      rewrite (declined_unchecked _ _ _ Hc). simpl.
      destruct (anon_download ext _ _ _ _ _) as [[[] | e] w2]; simpl;
        [| intros [= _ _ <-]; repeat constructor].
      destruct (verbose args); simpl; [| intros [= _ _ <-]; repeat constructor].
      destruct (Checksum_compute ext _ _) as [[md5 | e] w3]; simpl;
        intros [= _ _ <-]; repeat constructor.
  - intros [= _ _ <-]. revert Hres. unfold download_resources, call, ret.
    destruct (resource args); [destruct (read_file ext _ _) |];
      intros [= _ _ <-]; repeat constructor.
Qed.

(** Case analysis on every call an iteration makes. *)
Ltac split_calls :=
  repeat match goal with
    | |- context [check ?a] => destruct (check a) eqn:?; simpl
    | |- context [Path_exists ext ?p ?w] =>
        destruct (Path_exists ext p w) as [[|] | ?] eqn:?; simpl
    | |- context [input ext ?q ?w] => destruct (input ext q w) as [[? | ?] ?] eqn:?; simpl
    | |- context [str2bool ext ?a] => destruct (str2bool ext a) as [[|] | ?] eqn:?; simpl
    | |- context [anon_download ext ?a ?r ?p ?v ?w] =>
        destruct (anon_download ext a r p v w) as [[[] | ?] ?] eqn:?; simpl
    | |- context [verbose ?a] => destruct (verbose a) eqn:?; simpl
    | |- context [Checksum_compute ext ?f ?w] =>
        destruct (Checksum_compute ext f w) as [[? | ?] ?] eqn:?; simpl
    end.

(** X7. When the previewed record has no [name] (the key is missing or
    null), an iteration of [download] makes no overwrite check whatever the
    flag and issues the download; with [verbose] on and the download done,
    the MD5 is asked of [None], and if that returns the line printed for
    the file reads [file<TAB>None]. *)
Theorem download_without_name anon args res s rec w1 :
  anon_preview ext anon res (world s) = (Ok rec, w1) ->
  dict_get rec "name" = PyNone ->
  let t := (download_item ext anon args res s).2 in
  Forall (fun ev => is_overwrite_check ev = false) t /\
  (exists tail, t = [CallPreview res; CallDownload res (path args) (verbose args)] ++ tail) /\
  (verbose args = true ->
   forall w2, anon_download ext anon res (path args) true w1 = (Ok tt, w2) ->
     CallChecksum PyNone ∈ t /\
     forall md5 w3, Checksum_compute ext PyNone w2 = (Ok md5, w3) ->
       Stdout ("file" +:+ tab +:+ "None") ∈ t).
Proof.
  intros Hprev Hname t. subst t. run_item. rewrite Hprev. simpl. rewrite Hname.
  destruct (check args); simpl;
  split_calls; (split; [repeat constructor |]);
    (split; [eexists; reflexivity |]); intros Hv w' Hdl; try discriminate;
    simplify_eq; (split; [events_membership |]); intros; simplify_eq;
    events_membership.
Qed.

(** X8. With the check flag set, a previewed [name] that is neither a
    string nor [None] makes the iteration raise [TypeError] right after the
    preview: nothing is looked up, asked or downloaded. *)
Theorem download_name_not_a_string anon args res s rec w1 :
  check args = true ->
  anon_preview ext anon res (world s) = (Ok rec, w1) ->
  is_str (dict_get rec "name") = false ->
  dict_get rec "name" <> PyNone ->
  exists msg,
    download_item ext anon args res s =
      (Raised (TypeError msg), {| locals := locals s; world := w1 |},
       [CallPreview res]).
Proof.
  intros Hc Hprev Hstr Hnone. run_item. rewrite Hprev, Hc. simpl.
  destruct (dict_get rec "name") as [| b | z | p]; simpl;
    first [contradiction | discriminate | eexists; reflexivity].
Qed.

(** X9. An iteration of [download] issues the download of its resource
    exactly when the overwrite check lets it through: the flag is off, or
    the record has no [name], or the look-up of the name returns that no
    such file exists, or it returns that one exists and the user's answer
    to the prompt is read as "yes".  A look-up or a prompt that raises
    lets nothing through. *)
Theorem download_issued_iff anon args res s rec w1 :
  anon_preview ext anon res (world s) = (Ok rec, w1) ->
  (exists d v, CallDownload res d v ∈ (download_item ext anon args res s).2) <->
  (check args = false \/
   dict_get rec "name" = PyNone \/
   exists p, dict_get rec "name" = PyStr p /\
     (Path_exists ext p w1 = Ok false \/
      (Path_exists ext p w1 = Ok true /\
       exists answer w2, input ext overwrite_prompt w1 = (Ok answer, w2) /\
                         str2bool ext answer = Ok true))).
Proof.
  intros Hprev. run_item. rewrite Hprev. simpl.
  destruct (dict_get rec "name") as [| b | z | p] eqn:Hname; simpl.
  - split; [auto |]. intros _. exists (path args), (verbose args).
    destruct (check args); simpl; split_calls; events_membership.
  - destruct (check args) eqn:Hc; simpl.
    + split; [intros (d & v & H); events_membership |].
      intros [H | [H | (p & H & _)]]; discriminate.
    + split; [auto |]. intros _. exists (path args), (verbose args).
      split_calls; events_membership.
  - destruct (check args) eqn:Hc; simpl.
    + split; [intros (d & v & H); events_membership |].
      intros [H | [H | (p & H & _)]]; discriminate.
    + split; [auto |]. intros _. exists (path args), (verbose args).
      split_calls; events_membership.
  - destruct (check args) eqn:Hc; simpl.
    + destruct (Path_exists ext p w1) as [[|] | e0] eqn:Hex; simpl.
      * destruct (input ext overwrite_prompt w1) as [[answer | e] w2] eqn:Hin; simpl.
        -- destruct (str2bool ext answer) as [[|] | e] eqn:Hans; simpl.
           ++ split; [intros _; right; right; eauto 10 |].
              intros _. exists (path args), (verbose args).
              split_calls; events_membership.
           ++ split; [intros (d & v & H); events_membership |].
              intros [H | [H | (p' & H & [Hn | (Hy & a & w & Ha & Hb)])]];
                simplify_eq; congruence.
           ++ split; [intros (d & v & H); events_membership |].
              intros [H | [H | (p' & H & [Hn | (Hy & a & w & Ha & Hb)])]];
                simplify_eq; congruence.
        -- split; [intros (d & v & H); events_membership |].
           intros [H | [H | (p' & H & [Hn | (Hy & a & w & Ha & Hb)])]];
             simplify_eq; congruence.
      * split; [intros _; right; right; eauto |].
        intros _. exists (path args), (verbose args).
        split_calls; events_membership.
      * split; [intros (d & v & H); events_membership |].
        intros [H | [H | (p' & H & [Hn | (Hy & a & w & Ha & Hb)])]];
          simplify_eq; congruence.
    + split; [auto |]. intros _. exists (path args), (verbose args).
      split_calls; events_membership.
Qed.

Lemma download_item_operates anon args res s r s' t :
  download_item ext anon args res s = (r, s', t) ->
  Forall (fun ev => (forall b, ev <> CallReadFile b) /\
                    (is_provider_op ev = true -> concerns res ev = true)) t.
Proof.
  run_item.
  assert (Hres : bool_decide (res = res) = true) by (apply bool_decide_eq_true; reflexivity).
  destruct (anon_preview ext anon res (world s)) as [[rec | e] w1]; simpl.
  - destruct (dict_get rec "name") as [| b | z | p]; simpl;
      split_calls; intros [= _ _ <-]; repeat constructor;
      first [discriminate | intros _; exact Hres].
  - intros [= _ _ <-]. repeat constructor; first [discriminate | intros _; exact Hres].
Qed.

Lemma download_loop_operates anon args items s r s' t :
  for_each items (download_item ext anon args) s = (r, s', t) ->
  Forall (fun ev => (forall b, ev <> CallReadFile b) /\ operates_on items ev) t.
Proof.
  revert s r s' t. apply for_each_Forall. intros x s r s' t Hx Hitem.
  eapply Forall_impl; [exact (download_item_operates _ _ _ _ _ _ _ Hitem) |].
  intros ev [Hb Hop]. split; [exact Hb |]. intros Hev. exists x. auto.
Qed.

(** X11. [args.resource or read_file(args.batch_file)], whatever the
    outcome of [download]: with identifiers on the command line the batch
    file is never read and every provider operation is for one of them;
    with none, the batch file is read once, before anything else, every
    provider operation is for one of the lines it returned, and when
    reading it raises the command ends there with that exception. *)
Theorem download_operates_on_its_resources anon args s r s' t :
  download ext anon args s = (r, s', t) ->
  (resource args <> [] ->
   Forall (fun ev => (forall b, ev <> CallReadFile b) /\
                     operates_on (resource args) ev) t) /\
  (resource args = [] ->
   exists t',
     t = CallReadFile (batch_file args) :: t' /\
     (forall lines w1, read_file ext (batch_file args) (world s) = (Ok lines, w1) ->
        Forall (fun ev => (forall b, ev <> CallReadFile b) /\ operates_on lines ev) t') /\
     (forall e w1, read_file ext (batch_file args) (world s) = (Raised e, w1) ->
        t' = [] /\ r = Raised e)).
Proof.
  unfold download, download_resources, bind, call, ret. intros H. split.
  - intros Hne. destruct (resource args) as [| r0 rest] eqn:Hres; [contradiction |].
    destruct (for_each (r0 :: rest) _ s) as [[r1 s1] t1] eqn:Hloop.
    injection H as <- <- <-. exact (download_loop_operates _ _ _ _ _ _ _ Hloop).
  - intros Hnil. rewrite Hnil in H. simpl in H.
    destruct (read_file ext (batch_file args) (world s)) as [[lines | e] w1].
    + destruct (for_each lines _ _) as [[r1 s1] t1] eqn:Hloop.
      injection H as <- <- <-. exists t1. split; [reflexivity |]. split.
      * intros lines' w1' [= <- <-]. exact (download_loop_operates _ _ _ _ _ _ _ Hloop).
      * intros e w1' [=].
    + injection H as <- <- <-. exists []. split; [reflexivity |]. split.
      * intros lines w1' [=].
      * intros e' w1' [= <- <-]. auto.
Qed.

(** X12. With [verbose] off, the only thing [download] ever prints is the
    overwrite warning; with the check flag off as well it prints nothing,
    whatever its outcome. *)
Theorem download_quiet_prints_only_warnings anon args s r s' t :
  verbose args = false ->
  download ext anon args s = (r, s', t) ->
  Forall (fun ev => is_output ev = true ->
            check args = true /\ ev = Stdout (overwrite_warning ext args)) t.
Proof.
  intros Hv. unfold download, bind.
  assert (Hres : forall l s0 t0, download_resources ext args s = (l, s0, t0) ->
    Forall (fun ev => is_output ev = true ->
              check args = true /\ ev = Stdout (overwrite_warning ext args)) t0).
  { intros l s0 t0. unfold download_resources, call, ret.
    destruct (resource args); [destruct (read_file ext _ _) |];
      intros [= _ _ <-]; repeat constructor; discriminate. }
  destruct (download_resources ext args s) as [[[resources | e] s0] t0] eqn:Hr.
  - destruct (for_each resources _ s0) as [[r1 s1] t1] eqn:Hloop.
    intros [= _ _ <-]. apply Forall_app. split; [exact (Hres _ _ _ eq_refl) |].
    revert Hloop. apply for_each_Forall. clear -Hv. intros res s r s' t _.
    run_item.
    destruct (anon_preview ext anon res (world s)) as [[rec | e] w1]; simpl;
      [| intros [= _ _ <-]; repeat constructor; discriminate].
    rewrite Hv.
    destruct (dict_get rec "name") as [| b | z | p]; simpl;
      split_calls; intros [= _ _ <-]; repeat constructor;
      first [discriminate | intros _; split; reflexivity].
  - intros [= _ _ <-]. exact (Hres _ _ _ eq_refl).
Qed.

(** What holds of the empty trace and of appended traces whenever it holds
    of every iteration holds of the loop. *)
Lemma for_each_closed {A} (Q : list event -> Prop) (items : list A) (body : A -> M W unit) :
  Q [] ->
  (forall a b, Q a -> Q b -> Q (a ++ b)) ->
  (forall x s r s' t, x ∈ items -> body x s = (r, s', t) -> Q t) ->
  forall s r s' t, for_each items body s = (r, s', t) -> Q t.
Proof.
  intros Hnil Happ. induction items as [| x rest IH]; intros Hbody s r s' t; simpl.
  - intros [= _ _ <-]. exact Hnil.
  - assert (Hrest' : forall y s r s' t, y ∈ rest -> body y s = (r, s', t) -> Q t).
    { intros y ? ? ? ? Hy. apply Hbody. apply list_elem_of_further, Hy. }
    unfold bind. destruct (body x s) as [[[[] | e] s1] t1] eqn:Hx.
    + destruct (for_each rest body s1) as [[r2 s2] t2] eqn:Hrest.
      intros [= _ _ <-]. apply Happ.
      * exact (Hbody _ _ _ _ _ (list_elem_of_here _ _) Hx).
      * exact (IH Hrest' _ _ _ _ Hrest).
    + intros [= _ _ <-]. exact (Hbody _ _ _ _ _ (list_elem_of_here _ _) Hx).
Qed.

Lemma downloads_previewed_app dest bar a b :
  downloads_previewed dest bar a -> downloads_previewed dest bar b ->
  downloads_previewed dest bar (a ++ b).
Proof.
  intros Ha Hb t1 res d v t2 Heq.
  apply app_eq_app in Heq as [l [[-> Hl] | [-> Hl]]].
  - destruct l as [| ev l]; simpl in Hl.
    + destruct (Hb [] res d v t2 (eq_sym Hl)) as (_ & _ & Hin).
      apply elem_of_nil in Hin as [].
    + injection Hl as <- Hl.
      apply (Ha t1 res d v l). reflexivity.
  - destruct (Hb l res d v t2 Hl) as (-> & -> & Hin).
    repeat split. apply elem_of_app. right. exact Hin.
Qed.

Ltac split_at :=
  repeat match goal with
    | H : [] = ?t1 ++ _ :: _ |- _ => destruct t1; discriminate H
    | H : _ :: _ = ?t1 ++ _ :: _ |- _ =>
        destruct t1 as [| ? t1]; simpl in H; inversion H; clear H; subst
    end.

Lemma download_item_previewed anon args res s r s' t :
  download_item ext anon args res s = (r, s', t) ->
  downloads_previewed (path args) (verbose args) t.
Proof.
  run_item.
  destruct (anon_preview ext anon res (world s)) as [[rec | e] w1]; simpl.
  - destruct (dict_get rec "name") as [| b | z | p]; simpl;
      split_calls; intros [= _ _ <-]; intros t1 res' d v t2 Heq;
      split_at; repeat split; events_membership.
  - intros [= _ _ <-]. intros t1 res' d v t2 Heq. split_at.
Qed.

(** X10. Whatever its outcome, [download] never downloads a resource it
    has not previewed earlier in the run, and every download it issues
    goes to [args.path] with the progress bar following [verbose]. *)
Theorem download_only_after_preview anon args s r s' t :
  download ext anon args s = (r, s', t) ->
  forall t1 res d v t2,
    t = t1 ++ CallDownload res d v :: t2 ->
    d = path args /\ v = verbose args /\ CallPreview res ∈ t1.
Proof.
  intros Hrun. change (downloads_previewed (path args) (verbose args) t).
  revert Hrun. unfold download, bind.
  assert (Hres : forall l s0 t0, download_resources ext args s = (l, s0, t0) ->
    downloads_previewed (path args) (verbose args) t0).
  { intros l s0 t0. unfold download_resources, call, ret.
    destruct (resource args); [destruct (read_file ext _ _) |];
      intros [= _ _ <-]; intros t1 res d v t2 Heq; split_at. }
  destruct (download_resources ext args s) as [[[resources | e] s0] t0] eqn:Hr.
  - destruct (for_each resources _ s0) as [[r1 s1] t1] eqn:Hloop.
    intros [= _ _ <-]. apply downloads_previewed_app; [exact (Hres _ _ _ eq_refl) |].
    revert Hloop. apply for_each_closed.
    + intros t1' res d v t2 Heq. split_at.
    + apply downloads_previewed_app.
    + intros x ? ? ? ? _. apply download_item_previewed.
  - intros [= _ _ <-]. exact (Hres _ _ _ eq_refl).
Qed.

Lemma ops_for_none item t :
  Forall (fun ev => concerns item ev = false) t -> ops_for item t = [].
Proof.
  unfold ops_for. induction 1 as [| ev t Hev _ IH]; [reflexivity |].
  rewrite filter_cons_False by (rewrite Hev; discriminate). exact IH.
Qed.

Lemma download_item_concerns anon args res s r s' t item :
  item <> res ->
  download_item ext anon args res s = (r, s', t) ->
  Forall (fun ev => concerns item ev = false) t.
Proof.
  intros Hne. run_item.
  assert (Hno : bool_decide (res = item) = false).
  { apply bool_decide_eq_false. congruence. }
  destruct (anon_preview ext anon res (world s)) as [[rec | e] w1]; simpl.
  - destruct (dict_get rec "name") as [| b | z | p]; simpl;
      split_calls; intros [= _ _ <-]; repeat constructor; exact Hno.
  - intros [= _ _ <-]. repeat constructor. exact Hno.
Qed.

(** X13. [download] has no recovery inside its loop: when the iteration of
    one resource raises, after those before it went through, the command
    raises the same exception there, and no provider operation has been
    issued for any resource that comes later only. *)
Theorem download_stops_at_first_failure anon args done res rest s s1 t1 e s2 t2 :
  resource args = done ++ res :: rest ->
  for_each done (download_item ext anon args) s = (Ok tt, s1, t1) ->
  download_item ext anon args res s1 = (Raised e, s2, t2) ->
  download ext anon args s = (Raised e, s2, t1 ++ t2) /\
  forall later, later ∈ rest -> later ∉ done -> later <> res ->
    ops_for later (t1 ++ t2) = [].
Proof.
  intros Hres Hdone Hitem. split.
  - unfold download, download_resources, bind. rewrite Hres.
    destruct (done ++ res :: rest) as [| r0 l] eqn:Hl.
    { destruct done; discriminate. }
    unfold ret. rewrite <- Hl, (for_each_stops _ _ _ _ _ _ _ _ _ _ Hdone Hitem).
    reflexivity.
  - intros later _ Hnot Hne. apply ops_for_none, Forall_app. split.
    + revert Hdone. apply for_each_Forall. intros x ? ? ? ? Hx.
      apply download_item_concerns. intros ->. contradiction.
    + exact (download_item_concerns _ _ _ _ _ _ _ _ Hne Hitem).
Qed.

(** *** Provider operations per item *)

Ltac count_ops :=
  repeat first [rewrite provider_ops_cons | rewrite provider_ops_app];
  cbn [is_provider_op].

(** An iteration of [download] that ends normally issued a preview and,
    unless its prompt was declined, a download. *)
Lemma download_item_declined anon args res s s1 t1 :
  download_item ext anon args res s = (Ok tt, s1, t1) ->
  provider_ops t1 = ops_of_item args res (prompt_declined ext anon args res s).
Proof.
  unfold prompt_declined, ops_of_item. run_item.
  destruct (anon_preview ext anon res (world s)) as [[rec | e] w1]; simpl;
    [| discriminate].
  destruct (dict_get rec "name") as [| b | z | p]; simpl;
    split_calls; intros [= _ <-]; reflexivity.
Qed.

Lemma download_loop_declined anon args resources : forall s s' t,
  for_each resources (download_item ext anon args) s = (Ok tt, s', t) ->
  provider_ops t =
    concat (zip_with (ops_of_item args) resources
              (declined_prompts ext anon args resources s)).
Proof.
  induction resources as [| res rest IH]; intros s s' t; simpl.
  - intros [= _ <-]. reflexivity.
  - unfold bind.
    destruct (download_item ext anon args res s) as [[[[] | e] s1] t1] eqn:Hitem;
      [| discriminate].
    destruct (for_each rest _ s1) as [[r2 s2] t2] eqn:Hrest.
    intros [= -> _ <-]. simpl.
    rewrite provider_ops_app, (download_item_declined _ _ _ _ _ _ Hitem),
      (IH _ _ _ Hrest). reflexivity.
Qed.

(** C4 (as the code has it). In a run that ends normally the shell issues
    its provider operations item by item, in order: [preview] exactly one
    preview per resource identifier, [upload] exactly one upload per file,
    and [download], for each resource identifier, exactly one preview
    followed by exactly one download of it, the download being left out
    for the identifiers whose overwrite prompt the user declined, and for
    those only. *)
Theorem commands_ops_per_item anon args s s' t :
  (preview ext anon args s = (Ok tt, s', t) ->
   provider_ops t = CallPreview <$> resource args) /\
  (upload ext anon args s = (Ok tt, s', t) ->
   provider_ops t = (fun f => CallUpload f (verbose args)) <$> file args) /\
  (download ext anon args s = (Ok tt, s', t) ->
   exists resources s0 t0,
     download_resources ext args s = (Ok resources, s0, t0) /\
     provider_ops t =
       concat (zip_with (ops_of_item args) resources
                 (declined_prompts ext anon args resources s0))).
Proof.
  split; [| split].
  - apply preview_ops_per_item.
  - apply upload_ops_per_item.
  - unfold download, bind.
    destruct (download_resources ext args s) as [[[resources | e] s0] t0] eqn:Hres;
      [| discriminate].
    destruct (for_each resources _ s0) as [[r1 s1] t1] eqn:Hloop.
    intros [= -> _ <-]. exists resources, s0, t0. split; [reflexivity |].
    rewrite provider_ops_app, (download_loop_declined _ _ _ _ _ _ Hloop).
    assert (Ht0 : provider_ops t0 = []).
    { revert Hres. unfold download_resources, call, ret.
      destruct (resource args); [destruct (read_file ext _ _) |];
        intros [= _ _ <-]; reflexivity. }
    rewrite Ht0. reflexivity.
Qed.

(** When the look-up of the previewed name raises, the iteration raises
    the same right after it: no prompt, no download. *)
Lemma download_lookup_raises anon args res s rec w1 p e :
  check args = true ->
  anon_preview ext anon res (world s) = (Ok rec, w1) ->
  dict_get rec "name" = PyStr p ->
  Path_exists ext p w1 = Raised e ->
  download_item ext anon args res s =
    (Raised e, {| locals := locals s; world := w1 |}, [CallPreview res; CallExists p]).
Proof.
  intros Hc Hprev Hname Hex. run_item. rewrite Hprev. simpl.
  rewrite Hname, Hc. simpl. rewrite Hex. reflexivity.
Qed.

(** *** [main] *)

(** When the statements before the [match] all return, they are the four
    calls of [setup_events], the folder being the one [get_resource_path]
    returned; that folder and the provider are then bound. *)
Lemma setup_returns args s anon s1 t1 :
  setup ext args s = (Ok anon, s1, t1) ->
  exists folder,
    (get_resource_path ext (__package__ ext) (world s)).1 = Ok folder /\
    t1 = setup_events ext args folder /\
    anon = kwargs ext args /\
    module_folder (locals s1) = Some folder /\
    provider (locals s1) = Some anon.
Proof.
  unfold setup, bind, call, bind_module_folder, bind_provider, ret. simpl.
  destruct (get_resource_path ext _ _) as [[folder | e] w0]; [simpl | discriminate].
  destruct (PixelDrain ext _ _) as [[[] | e] w1]; [simpl | discriminate].
  destruct (set_base_path ext _ _ _) as [[[] | e] w2]; [simpl | discriminate].
  destruct (add_handler ext _ _ _) as [[[] | e] w3]; [simpl | discriminate].
  intros [= <- <- <-]. exists folder. repeat split.
Qed.

(** X14. When everything before the [match] returns and the command ends
    normally, [main] itself prints nothing: the run is the four set-up
    calls, the command's events, then [deinit()] and the logger's
    shutdown, whose outcome is the outcome of [main]. *)
Theorem main_try_normal_completion args s anon s1 t1 s2 t2 :
  setup ext args s = (Ok anon, s1, t1) ->
  dispatch ext anon args s1 = (Ok tt, s2, t2) ->
  exists folder,
    main_try ext args s =
      ((shutdown ext anon (world s2)).1,
       {| locals := locals s1; world := (shutdown ext anon (world s2)).2 |},
       setup_events ext args folder ++ t2 ++ [CallDeinit; CallShutdown]).
Proof.
  intros Hs Hd. destruct (setup_returns _ _ _ _ _ Hs) as (folder & _ & -> & _ & _ & Hp).
  exists folder. unfold main_try, try_finally, try_except.
  rewrite (bind_ok _ _ _ _ _ _ Hs), Hd.
  assert (Hl : locals s2 = locals s1) by exact (keeps_dispatch _ _ _ _ _ _ _ Hd).
  rewrite (finally_shuts_down ext s2 anon) by (rewrite Hl; exact Hp).
  rewrite Hl. destruct (shutdown ext anon (world s2)) as [[[] | e] w]; reflexivity.
Qed.

(** X15. A command that is none of [preview], [upload], [download] (or no
    command at all) makes [main] print the parser's help and nothing else:
    no provider operation is issued, and the logger is shut down. *)
Theorem main_try_unrecognised_command args s anon s1 t1 :
  command args <> Some "preview" ->
  command args <> Some "upload" ->
  command args <> Some "download" ->
  setup ext args s = (Ok anon, s1, t1) ->
  exists folder,
    main_try ext args s =
      ((shutdown ext anon (world s1)).1,
       {| locals := locals s1; world := (shutdown ext anon (world s1)).2 |},
       setup_events ext args folder ++ [PrintHelp; CallDeinit; CallShutdown]) /\
    provider_ops (main_try ext args s).2 = [].
Proof.
  intros H1 H2 H3 Hs.
  destruct (setup_returns _ _ _ _ _ Hs) as (folder & _ & Ht & _ & _ & _).
  exists folder.
  pose proof (main_try_command_raised ext args s anon s1 t1 _ s1 [] (Ok tt) s1 [PrintHelp]
                Hs (dispatch_unrecognised ext anon args s1 H1 H2 H3) eq_refl) as Hrun.
  assert (Heq : main_try ext args s =
    ((shutdown ext anon (world s1)).1,
     {| locals := locals s1; world := (shutdown ext anon (world s1)).2 |},
     setup_events ext args folder ++ [PrintHelp; CallDeinit; CallShutdown])).
  { rewrite Hrun, Ht. destruct (shutdown ext anon (world s1)) as [[[] | e] w]; reflexivity. }
  split; [exact Heq |]. rewrite Heq. reflexivity.
Qed.

(** [parse_args()] is called before the [try] statement: when it
    raises (as it does to exit on [--help] or on bad arguments), the
    exception leaves [main] as it is, and nothing else has happened: no
    provider is built, no handler runs, [deinit()] is not called. *)
Lemma main_parse_args_raises s e w :
  parse_args ext (world s) = (Raised e, w) ->
  main ext s = (Raised e, {| locals := locals s; world := w |}, [CallParseArgs]).
Proof. intros H. unfold main, bind, call. rewrite H. reflexivity. Qed.

(** X16. Once everything before the [match] has returned, no exception a
    command raises leaves [main], [SystemExit] included, with one
    exception: an [HTTPError] that carries no response.  If the logger's
    shutdown returns, [main] returns normally. *)
Theorem main_try_swallows_command_failures args s anon s1 t1 e s2 t2 w :
  setup ext args s = (Ok anon, s1, t1) ->
  dispatch ext anon args s1 = (Raised e, s2, t2) ->
  (forall msg, e <> HTTPError msg None) ->
  shutdown ext anon (world s2) = (Ok tt, w) ->
  (main_try ext args s).1 = (Ok tt, {| locals := locals s1; world := w |}).
Proof.
  intros Hs Hd Hresp Hsh.
  destruct (setup_returns _ _ _ _ _ Hs) as (folder & _ & _ & _ & Hm & _).
  assert (Hm2 : module_folder (locals s2) = Some folder).
  { rewrite (keeps_dispatch _ _ _ _ _ _ _ Hd). exact Hm. }
  assert (Hh : exists t3, handler ext e s2 = (Ok tt, s2, t3)).
  { destruct e as [| code | m | m [text |] | m | m | m | m | m | c m]; simpl;
      unfold load, bind, print_stderr, emit; rewrite ?Hm2; simpl;
      try (eexists; reflexivity).
    exfalso. exact (Hresp m eq_refl). }
  destruct Hh as [t3 Hh].
  rewrite (main_try_command_raised ext _ _ _ _ _ _ _ _ _ _ _ Hs Hd Hh), Hsh.
  reflexivity.
Qed.

(** X17. An exception of a command that is neither an [Exception] nor
    [KeyboardInterrupt] (a [SystemExit]) reaches the bare [except]:
    [main] prints the three-line message naming the module folder that
    [get_resource_path] returned on the error stream, then cleans up; the
    exit code is lost. *)
Theorem main_try_unhandled_exception args s anon s1 t1 code s2 t2 :
  setup ext args s = (Ok anon, s1, t1) ->
  dispatch ext anon args s1 = (Raised (SystemExit code), s2, t2) ->
  exists folder,
    (get_resource_path ext (__package__ ext) (world s)).1 = Ok folder /\
    main_try ext args s =
      ((shutdown ext anon (world s2)).1,
       {| locals := locals s1; world := (shutdown ext anon (world s2)).2 |},
       t1 ++ t2 ++ [Stderr (unhandled_message ext folder); CallDeinit; CallShutdown]).
Proof.
  intros Hs Hd.
  destruct (setup_returns _ _ _ _ _ Hs) as (folder & Hg & _ & _ & Hm & _).
  exists folder. split; [exact Hg |].
  assert (Hm2 : module_folder (locals s2) = Some folder).
  { rewrite (keeps_dispatch _ _ _ _ _ _ _ Hd). exact Hm. }
  assert (Hh : handler ext (SystemExit code) s2 =
               (Ok tt, s2, [Stderr (unhandled_message ext folder)])).
  { simpl. unfold load, bind, print_stderr, emit. rewrite Hm2. reflexivity. }
  rewrite (main_try_command_raised ext _ _ _ _ _ _ _ _ _ _ _ Hs Hd Hh).
  destruct (shutdown ext anon (world s2)) as [[[] | e] w]; reflexivity.
Qed.

(** X18. An [HTTPError] without a response makes the handler itself fail
    on [http_error.response.text]: nothing is printed, the [finally]
    clause still restores the console and shuts the logger down, and
    [main] ends with [AttributeError] (or with what the shutdown raised). *)
Theorem main_try_http_error_without_response args s anon s1 t1 msg s2 t2 :
  setup ext args s = (Ok anon, s1, t1) ->
  dispatch ext anon args s1 = (Raised (HTTPError msg None), s2, t2) ->
  main_try ext args s =
    (match (shutdown ext anon (world s2)).1 with
     | Ok _ => Raised (AttributeError "'NoneType' object has no attribute 'text'")
     | Raised e' => Raised e'
     end,
     {| locals := locals s1; world := (shutdown ext anon (world s2)).2 |},
     t1 ++ t2 ++ [CallDeinit; CallShutdown]).
Proof.
  intros Hs Hd.
  rewrite (main_try_command_raised ext _ _ _ _ _ _ _ _
             (Raised (AttributeError "'NoneType' object has no attribute 'text'"))
             s2 [] Hs Hd eq_refl).
  reflexivity.
Qed.

(** X19. Once [PixelDrain(...)] has returned, every run of [main] ends
    with [deinit()] followed by the logger's shutdown, whatever the set-up
    of the logger, the command or a handler did in between. *)
Theorem main_shuts_down_once_provider_built s args w folder w0 w1 :
  parse_args ext (world s) = (Ok args, w) ->
  get_resource_path ext (__package__ ext) w = (Ok folder, w0) ->
  PixelDrain ext (kwargs ext args) w0 = (Ok tt, w1) ->
  exists t, (main ext s).2 = t ++ [CallDeinit; CallShutdown].
Proof.
  intros Hparse Hg Hc. unfold main, bind, call. rewrite Hparse.
  destruct (main_try_shuts_down ext args {| locals := locals s; world := w |}
              folder w0 w1 Hg Hc) as [t Ht].
  destruct (main_try ext args _) as [[r s'] t']. simpl in Ht. subst t'.
  exists (CallParseArgs :: t). reflexivity.
Qed.

(** X20. When [get_resource_path] raises, neither [module_folder] nor
    [provider] is bound: the provider is never built, and the [finally]
    clause ends [main] with [UnboundLocalError] without a shutdown. *)
Theorem main_try_get_resource_path_raises args s e w0 :
  provider (locals s) = None ->
  get_resource_path ext (__package__ ext) (world s) = (Raised e, w0) ->
  (exists msg, (main_try ext args s).1.1 = Raised (UnboundLocalError msg)) /\
  (forall k, CallPixelDrain k ∉ (main_try ext args s).2) /\
  CallShutdown ∉ (main_try ext args s).2.
Proof.
  intros Hp Hg.
  assert (Hrun : (anon <- setup ext args ;; dispatch ext anon args) s =
    (Raised e, {| locals := locals s; world := w0 |},
     [CallGetResourcePath (__package__ ext)])).
  { unfold setup, bind, call. rewrite Hg. reflexivity. }
  unfold main_try, try_finally, try_except. rewrite Hrun.
  destruct (handler ext e _) as [[r3 s3] t3] eqn:Hh.
  assert (Hp3 : provider (locals s3) = None).
  { rewrite (keeps_handler ext e _ _ _ _ Hh). exact Hp. }
  assert (Ht3 : forall ev, ev ∈ t3 -> is_output ev = true).
  { clear -Hh. destruct e as [| | | m [body |] | | | | | |]; simpl in Hh;
      unfold print_stderr, emit, ret, raise, bind, load in Hh;
      try destruct (module_folder _); simpl in Hh;
      inversion Hh; subst t3; intros ev Hev; events_membership; subst; reflexivity. }
  unfold finally, bind, emit, load. rewrite Hp3. simpl.
  split; [eexists; reflexivity |]. split.
  - intros k Hin. apply elem_of_cons in Hin as [Hin | Hin]; [discriminate |].
    apply elem_of_app in Hin as [Hin | Hin].
    + apply Ht3 in Hin. discriminate.
    + events_membership.
  - intros Hin. apply elem_of_cons in Hin as [Hin | Hin]; [discriminate |].
    apply elem_of_app in Hin as [Hin | Hin].
    + apply Ht3 in Hin. discriminate.
    + events_membership.
Qed.

End Loops.


(** ** Further runs in the scripted worlds *)

Lemma preview_prints_joined_values_witness :
  let args := Mock.args_preview ["abc123"; "def456"] false in
  let s := initial (Script.world_serving (fun r => Ok (Script.plain_info r)) args [] []) in
  preview Mock.ext Mock.anon args s =
    (let '(r, s', t') := for_each ["def456"] (preview_item Mock.ext Mock.anon args) s in
     (r, s', [CallPreview "abc123"; Stdout "abc123,abc123.txt,text/plain"] ++ t')).
Proof.
  intros args s.
  exact (preview_prints_joined_values Mock.ext Mock.anon args "abc123" ["def456"] s
           (Script.plain_info "abc123") (world s) ["abc123"; "abc123.txt"; "text/plain"]
           eq_refl eq_refl eq_refl eq_refl).
Defined.


Lemma upload_quiet_only_uploads_witness :
  let args := Script.args_upload ["a.txt"; "b.txt"] false in
  let run := upload Mock.ext Mock.anon args (initial (Mock.world args [] [])) in
  (exists n, n <= 2 /\
     run.2 = (fun f => CallUpload f false) <$> take n ["a.txt"; "b.txt"]) /\
  (run.1.1 = Ok tt -> run.2 = [CallUpload "a.txt" false; CallUpload "b.txt" false]).
Proof.
  intros args run.
  exact (upload_quiet_only_uploads Mock.ext Mock.anon args
           (initial (Mock.world args [] [])) _ _ _ eq_refl eq_refl).
Defined.

Lemma upload_verbose_reports_each_file_witness :
  let args := Script.args_upload ["a.txt"; "b.txt"] true in
  let s := initial (Mock.world args [] []) in
  exists digests : list digest,
    upload_chain Mock.ext Mock.anon ["a.txt"; "b.txt"] (world s) digests (world s) /\
    length digests = 2 /\
    (upload Mock.ext Mock.anon args s).2 =
      concat (zip_with (upload_report Mock.ext) ["a.txt"; "b.txt"] digests).
Proof.
  intros args s.
  exact (upload_verbose_reports_each_file Mock.ext Mock.anon args s s
           (upload Mock.ext Mock.anon args s).2 eq_refl eq_refl).
Defined.

Lemma download_prompts_iff_witness :
  let args := Mock.args_download ["abc123"] "/tmp/dl" false true in
  let s := initial (Mock.world args ["abc123.txt"] ["y"]) in
  (exists q, CallInput q ∈ (download_item Mock.ext Mock.anon args "abc123" s).2) <->
  (check args = true /\
   exists p, dict_get (Mock.file_info "abc123") "name" = PyStr p /\
             Path_exists Mock.ext p (world s) = Ok true).
Proof.
  intros args s.
  exact (download_prompts_iff Mock.ext Mock.anon args "abc123" s
           (Mock.file_info "abc123") (world s) eq_refl).
Defined.

Lemma download_unchecked_never_asks_witness :
  let args := Mock.args_download ["abc123"; "def456"] "/tmp/dl" true false in
  Forall (fun ev => is_overwrite_check ev = false)
    (download Mock.ext Mock.anon args (initial (Mock.world args ["abc123.txt"] ["n"]))).2.
Proof.
  intros args.
  exact (download_unchecked_never_asks Mock.ext Mock.anon args
           (initial (Mock.world args ["abc123.txt"] ["n"])) _ _ _ eq_refl eq_refl).
Defined.

Lemma download_without_name_witness :
  let args := Mock.args_download ["abc123"] "/tmp/dl" true true in
  let s := initial (Script.world_serving (fun r => Ok (Script.nameless_info r)) args
                      ["abc123"] ["n"]) in
  let t := (download_item Mock.ext Mock.anon args "abc123" s).2 in
  Forall (fun ev => is_overwrite_check ev = false) t /\
  (exists tail, t = [CallPreview "abc123"; CallDownload "abc123" "/tmp/dl" true] ++ tail) /\
  (verbose args = true ->
   forall w2, anon_download Mock.ext Mock.anon "abc123" (path args) true (world s) = (Ok tt, w2) ->
     CallChecksum PyNone ∈ t /\
     forall md5 w3, Checksum_compute Mock.ext PyNone w2 = (Ok md5, w3) ->
       Stdout ("file" +:+ tab +:+ "None") ∈ t).
Proof.
  intros args s.
  exact (download_without_name Mock.ext Mock.anon args "abc123" s
           (Script.nameless_info "abc123") (world s) eq_refl eq_refl).
Defined.

Lemma download_name_not_a_string_witness :
  let args := Mock.args_download ["abc123"] "/tmp/dl" false true in
  let s := initial (Script.world_serving (fun r => Ok (Script.numbered_info r)) args [] []) in
  exists msg,
    download_item Mock.ext Mock.anon args "abc123" s =
      (Raised (TypeError msg), {| locals := locals s; world := world s |},
       [CallPreview "abc123"]).
Proof.
  intros args s.
  apply (download_name_not_a_string Mock.ext Mock.anon args "abc123" s
           (Script.numbered_info "abc123") (world s) eq_refl eq_refl eq_refl).
  discriminate.
Defined.

Lemma download_issued_iff_witness :
  let args := Mock.args_download ["abc123"] "/tmp/dl" false true in
  let s := initial (Mock.world args ["abc123.txt"] ["n"]) in
  (exists d v, CallDownload "abc123" d v ∈
                 (download_item Mock.ext Mock.anon args "abc123" s).2) <->
  (check args = false \/
   dict_get (Mock.file_info "abc123") "name" = PyNone \/
   exists p, dict_get (Mock.file_info "abc123") "name" = PyStr p /\
     (Path_exists Mock.ext p (world s) = Ok false \/
      (Path_exists Mock.ext p (world s) = Ok true /\
       exists answer w2, input Mock.ext overwrite_prompt (world s) = (Ok answer, w2) /\
                         str2bool Mock.ext answer = Ok true))).
Proof.
  intros args s.
  exact (download_issued_iff Mock.ext Mock.anon args "abc123" s
           (Mock.file_info "abc123") (world s) eq_refl).
Defined.

Lemma download_only_after_preview_witness :
  let args := Mock.args_download ["abc123"; "def456"] "/tmp/dl" true true in
  let t1 := [CallPreview "abc123"; CallExists "abc123.txt";
             Stdout (overwrite_warning Mock.ext args); CallInput overwrite_prompt;
             CallPreview "def456"; CallExists "def456.txt"] in
  "/tmp/dl" = path args /\ true = verbose args /\ CallPreview "def456" ∈ t1.
Proof.
  intros args t1.
  exact (download_only_after_preview Mock.ext Mock.anon args
           (initial (Mock.world args ["abc123.txt"] ["n"])) _ _ _ eq_refl
           t1 "def456" "/tmp/dl" true
           [CallChecksum (PyStr "def456.txt");
            Stdout ("file" +:+ tab +:+ "def456.txt");
            Stdout ("md5" +:+ tab +:+ "d41d8cd98f00b204e9800998ecf8427e")]
           eq_refl).
Defined.

Lemma download_operates_on_its_resources_witness :
  let lines := ["abc123"; "def456"] in
  let args := Batch.args false false in
  let s := initial (Mock.world args [] []) in
  exists t',
    (download (Batch.ext lines) Mock.anon args s).2 = CallReadFile (Some "batch.txt") :: t' /\
    (forall lines' w1, read_file (Batch.ext lines) (Some "batch.txt") (world s) = (Ok lines', w1) ->
       Forall (fun ev => (forall b, ev <> CallReadFile b) /\ operates_on lines' ev) t') /\
    (forall e w1, read_file (Batch.ext lines) (Some "batch.txt") (world s) = (Raised e, w1) ->
       t' = [] /\ Ok tt = Raised e).
Proof.
  intros lines args s.
  destruct (download_operates_on_its_resources (Batch.ext lines) Mock.anon args s
              (Ok tt) s (download (Batch.ext lines) Mock.anon args s).2 eq_refl)
    as [_ Hbatch].
  exact (Hbatch eq_refl).
Defined.

Example download_from_batch_file :
  (download (Batch.ext ["abc123"; "def456"]) Mock.anon (Batch.args false false)
     (initial (Mock.world (Batch.args false false) [] []))).2 =
  [CallReadFile (Some "batch.txt");
   CallPreview "abc123"; CallDownload "abc123" "/tmp/dl" false;
   CallPreview "def456"; CallDownload "def456" "/tmp/dl" false].
Proof. vm_compute. reflexivity. Qed.

Example download_name_too_long :
  let args := Mock.args_download ["abc123"] "/tmp/dl" false true in
  download Batch.ext_name_too_long Mock.anon args (initial (Mock.world args [] ["y"])) =
    (Raised Batch.name_too_long, initial (Mock.world args [] ["y"]),
     [CallPreview "abc123"; CallExists "abc123.txt"]).
Proof. vm_compute. reflexivity. Qed.

Lemma commands_ops_per_item_witness :
  let previews := Script.world_serving (fun r => Ok (Script.plain_info r)) in
  let a1 := Mock.args_preview ["abc123"; "def456"] false in
  let a2 := Script.args_upload ["a.txt"; "b.txt"] false in
  let a3 := Mock.args_download ["abc123"; "def456"] "/tmp/dl" false true in
  let s3 := initial (Mock.world a3 ["abc123.txt"] ["n"]) in
  provider_ops (preview Mock.ext Mock.anon a1 (initial (previews a1 [] []))).2 =
    [CallPreview "abc123"; CallPreview "def456"] /\
  provider_ops (upload Mock.ext Mock.anon a2 (initial (Mock.world a2 [] []))).2 =
    [CallUpload "a.txt" false; CallUpload "b.txt" false] /\
  exists resources s0 t0,
    download_resources Mock.ext a3 s3 = (Ok resources, s0, t0) /\
    provider_ops (download Mock.ext Mock.anon a3 s3).2 =
      concat (zip_with (ops_of_item a3) resources
                (declined_prompts Mock.ext Mock.anon a3 resources s0)).
Proof.
  intros previews a1 a2 a3 s3.
  split; [| split].
  - exact (proj1 (commands_ops_per_item Mock.ext Mock.anon a1
                    (initial (previews a1 [] [])) (initial (previews a1 [] []))
                    (preview Mock.ext Mock.anon a1 (initial (previews a1 [] []))).2)
             eq_refl).
  - exact (proj1 (proj2 (commands_ops_per_item Mock.ext Mock.anon a2
                    (initial (Mock.world a2 [] [])) (initial (Mock.world a2 [] []))
                    (upload Mock.ext Mock.anon a2 (initial (Mock.world a2 [] []))).2))
             eq_refl).
  - exact (proj2 (proj2 (commands_ops_per_item Mock.ext Mock.anon a3 s3
                    (initial (Mock.world a3 ["abc123.txt"] []))
                    (download Mock.ext Mock.anon a3 s3).2))
             eq_refl).
Defined.

Example declined_prompts_of_run :
  let a3 := Mock.args_download ["abc123"; "def456"] "/tmp/dl" false true in
  declined_prompts Mock.ext Mock.anon a3 ["abc123"; "def456"]
    (initial (Mock.world a3 ["abc123.txt"] ["n"])) = [true; false].
Proof. vm_compute. reflexivity. Qed.

Lemma download_quiet_prints_only_warnings_witness :
  let args := Mock.args_download ["abc123"; "def456"] "/tmp/dl" false true in
  Forall (fun ev => is_output ev = true ->
            check args = true /\ ev = Stdout (overwrite_warning Mock.ext args))
    (download Mock.ext Mock.anon args (initial (Mock.world args ["abc123.txt"] ["y"]))).2.
Proof.
  intros args.
  exact (download_quiet_prints_only_warnings Mock.ext Mock.anon args
           (initial (Mock.world args ["abc123.txt"] ["y"])) _ _ _ eq_refl eq_refl).
Defined.

Lemma download_stops_at_first_failure_witness :
  let args := Mock.args_download ["abc123"; "missing"; "def456"] "/tmp/dl" false false in
  let s := initial (Script.world_serving Script.serve_but_missing args [] []) in
  let t := [CallPreview "abc123"; CallDownload "abc123" "/tmp/dl" false;
            CallPreview "missing"] in
  download Mock.ext Mock.anon args s = (Raised Script.not_found, s, t) /\
  forall later, later ∈ ["def456"] -> later ∉ ["abc123"] -> later <> "missing" ->
    ops_for later t = [].
Proof.
  intros args s t.
  exact (download_stops_at_first_failure Mock.ext Mock.anon args
           ["abc123"] "missing" ["def456"] s s _ Script.not_found s _
           eq_refl eq_refl eq_refl).
Defined.

Lemma main_try_normal_completion_witness :
  let args := Script.args_upload ["a.txt"] false in
  let s := initial (Mock.world args [] []) in
  exists folder,
    main_try Mock.ext args s =
      (Ok tt,
       {| locals := {| module_folder := Some "/home/user/.anonpy";
                       provider := Some (kwargs Mock.ext args) |};
          world := world s |},
       setup_events Mock.ext args folder ++ [CallUpload "a.txt" false]
         ++ [CallDeinit; CallShutdown]).
Proof.
  intros args s.
  exact (main_try_normal_completion Mock.ext args s (kwargs Mock.ext args) _ _ _ _
           eq_refl eq_refl).
Defined.

Lemma main_try_unrecognised_command_witness :
  let args := Script.args_unknown in
  let s := initial (Mock.world args [] []) in
  exists folder,
    main_try Mock.ext args s =
      (Ok tt,
       {| locals := {| module_folder := Some "/home/user/.anonpy";
                       provider := Some (kwargs Mock.ext args) |};
          world := world s |},
       setup_events Mock.ext args folder ++ [PrintHelp; CallDeinit; CallShutdown]) /\
    provider_ops (main_try Mock.ext args s).2 = [].
Proof.
  intros args s.
  refine (main_try_unrecognised_command Mock.ext args s (kwargs Mock.ext args)
            {| locals := {| module_folder := Some "/home/user/.anonpy";
                            provider := Some (kwargs Mock.ext args) |};
               world := world s |}
            (setup_events Mock.ext args "/home/user/.anonpy") _ _ _ eq_refl);
    discriminate.
Defined.

Lemma main_try_swallows_command_failures_witness :
  let args := Mock.args_preview ["abc123"] false in
  let s := initial (Mock.world args [] []) in
  (main_try (Script.ext_raising (SystemExit 2)) args s).1 =
    (Ok tt,
     {| locals := {| module_folder := Some "/home/user/.anonpy";
                     provider := Some (kwargs Mock.ext args) |};
        world := world s |}).
Proof.
  intros args s.
  refine (main_try_swallows_command_failures (Script.ext_raising (SystemExit 2)) args s
            (kwargs Mock.ext args)
            {| locals := {| module_folder := Some "/home/user/.anonpy";
                            provider := Some (kwargs Mock.ext args) |};
               world := world s |}
            (setup_events Mock.ext args "/home/user/.anonpy")
            (SystemExit 2)
            {| locals := {| module_folder := Some "/home/user/.anonpy";
                            provider := Some (kwargs Mock.ext args) |};
               world := world s |}
            [CallPreview "abc123"] (world s) eq_refl eq_refl _ eq_refl).
  discriminate.
Defined.

Lemma main_try_unhandled_exception_witness :
  let args := Mock.args_preview ["abc123"] false in
  let s := initial (Mock.world args [] []) in
  exists folder,
    (get_resource_path (Script.ext_raising (SystemExit 2)) "anonpy" (world s)).1 = Ok folder /\
    main_try (Script.ext_raising (SystemExit 2)) args s =
      (Ok tt,
       {| locals := {| module_folder := Some "/home/user/.anonpy";
                       provider := Some (kwargs Mock.ext args) |};
          world := world s |},
       setup_events Mock.ext args "/home/user/.anonpy" ++ [CallPreview "abc123"] ++
       [Stderr (unhandled_message Mock.ext folder); CallDeinit; CallShutdown]).
Proof.
  intros args s.
  exact (main_try_unhandled_exception (Script.ext_raising (SystemExit 2)) args s
           (kwargs Mock.ext args) _ _ 2%Z _ _ eq_refl eq_refl).
Defined.

Lemma main_try_http_error_without_response_witness :
  let args := Mock.args_preview ["abc123"] false in
  let s := initial (Mock.world args [] []) in
  main_try (Script.ext_raising (HTTPError "timed out" None)) args s =
    (Raised (AttributeError "'NoneType' object has no attribute 'text'"),
     {| locals := {| module_folder := Some "/home/user/.anonpy";
                     provider := Some (kwargs Mock.ext args) |};
        world := world s |},
     setup_events Mock.ext args "/home/user/.anonpy" ++ [CallPreview "abc123"] ++
     [CallDeinit; CallShutdown]).
Proof.
  intros args s.
  exact (main_try_http_error_without_response
           (Script.ext_raising (HTTPError "timed out" None)) args s
           (kwargs Mock.ext args) _ _ "timed out" _ _ eq_refl eq_refl).
Defined.

Lemma main_shuts_down_once_provider_built_witness :
  let args := Mock.args_preview ["abc123"] false in
  exists t, (main Mock.ext (initial (Mock.world args [] []))).2 =
            t ++ [CallDeinit; CallShutdown].
Proof.
  intros args.
  exact (main_shuts_down_once_provider_built Mock.ext (initial (Mock.world args [] []))
           args _ _ _ _ eq_refl eq_refl eq_refl).
Defined.

Lemma main_try_get_resource_path_raises_witness :
  let args := Mock.args_preview ["abc123"] false in
  let s := initial (Mock.world args [] []) in
  (exists msg, (main_try Script.ext_no_folder args s).1.1 = Raised (UnboundLocalError msg)) /\
  (forall k, CallPixelDrain k ∉ (main_try Script.ext_no_folder args s).2) /\
  CallShutdown ∉ (main_try Script.ext_no_folder args s).2.
Proof.
  intros args s.
  exact (main_try_get_resource_path_raises Script.ext_no_folder args s _ _
           eq_refl eq_refl).
Defined.

Example main_swallows_system_exit :
  let args := Mock.args_preview ["abc123"] false in
  let s := initial (Mock.world args [] []) in
  main (Script.ext_raising (SystemExit 2)) s =
    (Ok tt,
     {| locals := {| module_folder := Some "/home/user/.anonpy";
                     provider := Some (kwargs Mock.ext args) |};
        world := world s |},
     [CallParseArgs] ++ setup_events Mock.ext args "/home/user/.anonpy" ++
     [CallPreview "abc123";
      Stderr (unhandled_message Mock.ext "/home/user/.anonpy"); CallDeinit; CallShutdown]).
Proof. vm_compute. reflexivity. Qed.
